(** * htmlgopdf: options, fluent builder and PDF generator

    A shallow embedding of the Go package [htmlgopdf]: the options record,
    the fluent builder ([builder.go]) and the generator ([generator.go]).  The package configures a flat record of
    rendering options and drives an external browser through the chromedp
    client: navigate, wait, print to PDF, return the bytes.

    Conventions of the embedding:
    - [float64] is Rocq's primitive binary64 [float];
    - [time.Duration] is a count of nanoseconds in [Z];
    - [string] is [String.string];
    - a Go pointer is an optional address into an append-only heap
      ([None] is [nil]); dereferencing [nil] panics;
    - a Go [[]byte] is an optional list of bytes ([None] is the nil slice);
    - the external browser client is an interface ([External]) of which
      only the replies are unknown. *)

From Stdlib Require Import ZArith String List Bool.
From Stdlib Require Import Strings.Byte.
From Stdlib Require Import Floats.PrimFloat.
From stdpp Require Import base option list.

Import ListNotations.
Set Warnings "-inexact-float".
Local Open Scope string_scope.
Local Open Scope Z_scope.

(** ** Basic Go types *)

Definition float64 := float.
Definition Duration := Z.

Module time.
Definition Nanosecond : Duration := 1.
Definition Millisecond : Duration := 1000000.
Definition Second : Duration := 1000000000.
End time.

(** [[]byte]: [None] is the nil slice. *)
Definition bytes := option (list byte).

(** ** Errors

    An [error] value is either an error produced outside this package (by
    the browser client) or the result of [fmt.Errorf] with a trailing [%w]
    verb, which keeps the wrapped error reachable through [Unwrap]. *)

Inductive error : Type :=
| ClientError (msg : string)
| Wrapped (prefix : string) (inner : error).

Module fmt.
(** [fmt.Errorf(prefix ++ "%w", err)] *)
Definition Errorf (prefix : string) (err : error) : error := Wrapped prefix err.
End fmt.

Module errors.
Fixpoint Error (e : error) : string :=
  match e with
  | ClientError msg => msg
  | Wrapped prefix inner => prefix ++ Error inner
  end.

Definition Unwrap (e : error) : option error :=
  match e with
  | ClientError _ => None
  | Wrapped _ inner => Some inner
  end.

(** The chain walked by [errors.Is]: [e], [Unwrap e], ... *)
Fixpoint chain (e : error) : list error :=
  match e with
  | ClientError _ => [e]
  | Wrapped _ inner => e :: chain inner
  end.
End errors.

(** ** The options record *)

Record PDFOptions : Type := mkPDFOptions {
  Format : string;
  Width : float64;
  Height : float64;
  MarginTop : float64;
  MarginBottom : float64;
  MarginLeft : float64;
  MarginRight : float64;
  Landscape : bool;
  PrintBackground : bool;
  Scale : float64;
  DisplayHeaderFooter : bool;
  HeaderTemplate : string;
  FooterTemplate : string;
  WaitForSelector : string;
  WaitTime : Duration;
  Timeout : Duration
}.

(** The literal returned by [DefaultOptions]; fields the literal does not
    mention hold Go's zero values. *)
Definition DefaultOptions_value : PDFOptions :=
  {| Format := "A4";
     Width := 0%float;
     Height := 0%float;
     MarginTop := 0.4%float;
     MarginBottom := 0.4%float;
     MarginLeft := 0.4%float;
     MarginRight := 0.4%float;
     Landscape := false;
     PrintBackground := true;
     Scale := 1.0%float;
     DisplayHeaderFooter := false;
     HeaderTemplate := "";
     FooterTemplate := "";
     WaitForSelector := "";
     WaitTime := time.Second * 2;
     Timeout := time.Second * 30 |}.

(** Field assignments [o.F = v]. *)
Definition set_Format (v : string) (o : PDFOptions) : PDFOptions :=
  mkPDFOptions v (Width o) (Height o) (MarginTop o) (MarginBottom o)
    (MarginLeft o) (MarginRight o) (Landscape o) (PrintBackground o)
    (Scale o) (DisplayHeaderFooter o) (HeaderTemplate o) (FooterTemplate o)
    (WaitForSelector o) (WaitTime o) (Timeout o).
Definition set_Width (v : float64) (o : PDFOptions) : PDFOptions :=
  mkPDFOptions (Format o) v (Height o) (MarginTop o) (MarginBottom o)
    (MarginLeft o) (MarginRight o) (Landscape o) (PrintBackground o)
    (Scale o) (DisplayHeaderFooter o) (HeaderTemplate o) (FooterTemplate o)
    (WaitForSelector o) (WaitTime o) (Timeout o).
Definition set_Height (v : float64) (o : PDFOptions) : PDFOptions :=
  mkPDFOptions (Format o) (Width o) v (MarginTop o) (MarginBottom o)
    (MarginLeft o) (MarginRight o) (Landscape o) (PrintBackground o)
    (Scale o) (DisplayHeaderFooter o) (HeaderTemplate o) (FooterTemplate o)
    (WaitForSelector o) (WaitTime o) (Timeout o).
Definition set_MarginTop (v : float64) (o : PDFOptions) : PDFOptions :=
  mkPDFOptions (Format o) (Width o) (Height o) v (MarginBottom o)
    (MarginLeft o) (MarginRight o) (Landscape o) (PrintBackground o)
    (Scale o) (DisplayHeaderFooter o) (HeaderTemplate o) (FooterTemplate o)
    (WaitForSelector o) (WaitTime o) (Timeout o).
Definition set_MarginBottom (v : float64) (o : PDFOptions) : PDFOptions :=
  mkPDFOptions (Format o) (Width o) (Height o) (MarginTop o) v
    (MarginLeft o) (MarginRight o) (Landscape o) (PrintBackground o)
    (Scale o) (DisplayHeaderFooter o) (HeaderTemplate o) (FooterTemplate o)
    (WaitForSelector o) (WaitTime o) (Timeout o).
Definition set_MarginLeft (v : float64) (o : PDFOptions) : PDFOptions :=
  mkPDFOptions (Format o) (Width o) (Height o) (MarginTop o) (MarginBottom o)
    v (MarginRight o) (Landscape o) (PrintBackground o)
    (Scale o) (DisplayHeaderFooter o) (HeaderTemplate o) (FooterTemplate o)
    (WaitForSelector o) (WaitTime o) (Timeout o).
Definition set_MarginRight (v : float64) (o : PDFOptions) : PDFOptions :=
  mkPDFOptions (Format o) (Width o) (Height o) (MarginTop o) (MarginBottom o)
    (MarginLeft o) v (Landscape o) (PrintBackground o)
    (Scale o) (DisplayHeaderFooter o) (HeaderTemplate o) (FooterTemplate o)
    (WaitForSelector o) (WaitTime o) (Timeout o).
Definition set_Landscape (v : bool) (o : PDFOptions) : PDFOptions :=
  mkPDFOptions (Format o) (Width o) (Height o) (MarginTop o) (MarginBottom o)
    (MarginLeft o) (MarginRight o) v (PrintBackground o)
    (Scale o) (DisplayHeaderFooter o) (HeaderTemplate o) (FooterTemplate o)
    (WaitForSelector o) (WaitTime o) (Timeout o).
Definition set_PrintBackground (v : bool) (o : PDFOptions) : PDFOptions :=
  mkPDFOptions (Format o) (Width o) (Height o) (MarginTop o) (MarginBottom o)
    (MarginLeft o) (MarginRight o) (Landscape o) v
    (Scale o) (DisplayHeaderFooter o) (HeaderTemplate o) (FooterTemplate o)
    (WaitForSelector o) (WaitTime o) (Timeout o).
Definition set_Scale (v : float64) (o : PDFOptions) : PDFOptions :=
  mkPDFOptions (Format o) (Width o) (Height o) (MarginTop o) (MarginBottom o)
    (MarginLeft o) (MarginRight o) (Landscape o) (PrintBackground o)
    v (DisplayHeaderFooter o) (HeaderTemplate o) (FooterTemplate o)
    (WaitForSelector o) (WaitTime o) (Timeout o).
Definition set_DisplayHeaderFooter (v : bool) (o : PDFOptions) : PDFOptions :=
  mkPDFOptions (Format o) (Width o) (Height o) (MarginTop o) (MarginBottom o)
    (MarginLeft o) (MarginRight o) (Landscape o) (PrintBackground o)
    (Scale o) v (HeaderTemplate o) (FooterTemplate o)
    (WaitForSelector o) (WaitTime o) (Timeout o).
Definition set_HeaderTemplate (v : string) (o : PDFOptions) : PDFOptions :=
  mkPDFOptions (Format o) (Width o) (Height o) (MarginTop o) (MarginBottom o)
    (MarginLeft o) (MarginRight o) (Landscape o) (PrintBackground o)
    (Scale o) (DisplayHeaderFooter o) v (FooterTemplate o)
    (WaitForSelector o) (WaitTime o) (Timeout o).
Definition set_FooterTemplate (v : string) (o : PDFOptions) : PDFOptions :=
  mkPDFOptions (Format o) (Width o) (Height o) (MarginTop o) (MarginBottom o)
    (MarginLeft o) (MarginRight o) (Landscape o) (PrintBackground o)
    (Scale o) (DisplayHeaderFooter o) (HeaderTemplate o) v
    (WaitForSelector o) (WaitTime o) (Timeout o).
Definition set_WaitForSelector (v : string) (o : PDFOptions) : PDFOptions :=
  mkPDFOptions (Format o) (Width o) (Height o) (MarginTop o) (MarginBottom o)
    (MarginLeft o) (MarginRight o) (Landscape o) (PrintBackground o)
    (Scale o) (DisplayHeaderFooter o) (HeaderTemplate o) (FooterTemplate o)
    v (WaitTime o) (Timeout o).
Definition set_WaitTime (v : Duration) (o : PDFOptions) : PDFOptions :=
  mkPDFOptions (Format o) (Width o) (Height o) (MarginTop o) (MarginBottom o)
    (MarginLeft o) (MarginRight o) (Landscape o) (PrintBackground o)
    (Scale o) (DisplayHeaderFooter o) (HeaderTemplate o) (FooterTemplate o)
    (WaitForSelector o) v (Timeout o).
Definition set_Timeout (v : Duration) (o : PDFOptions) : PDFOptions :=
  mkPDFOptions (Format o) (Width o) (Height o) (MarginTop o) (MarginBottom o)
    (MarginLeft o) (MarginRight o) (Landscape o) (PrintBackground o)
    (Scale o) (DisplayHeaderFooter o) (HeaderTemplate o) (FooterTemplate o)
    (WaitForSelector o) (WaitTime o) v.


(** ** The browser's print request ([cdproto/page])

    [page.PrintToPDFParams] belongs to the external client.  Only the fields
    that [generatePDF] assigns are represented; every other field of the
    external type is never written by this package and keeps its zero
    value. *)

Module page.
Record PrintToPDFParams : Type := mkPrintToPDFParams {
  Landscape : bool;
  DisplayHeaderFooter : bool;
  PrintBackground : bool;
  Scale : float64;
  PaperWidth : float64;
  PaperHeight : float64;
  MarginTop : float64;
  MarginBottom : float64;
  MarginLeft : float64;
  MarginRight : float64;
  HeaderTemplate : string;
  FooterTemplate : string
}.
End page.

(** The paper size chosen by [generatePDF] (generator.go, lines 123-145):
    a [switch] over the named format when [Format] is non-empty, the custom
    dimensions when both are positive, zero otherwise. *)
Definition paperSize (o : PDFOptions) : float64 * float64 :=
  if negb (String.eqb (Format o) "") then
    if String.eqb (Format o) "A4" then (8.27%float, 11.7%float)
    else if String.eqb (Format o) "A3" then (11.7%float, 16.5%float)
    else if String.eqb (Format o) "Letter" then (8.5%float, 11.0%float)
    else if String.eqb (Format o) "Legal" then (8.5%float, 14.0%float)
    else if String.eqb (Format o) "Tabloid" then (11.0%float, 17.0%float)
    else (0%float, 0%float)
  else if PrimFloat.ltb 0%float (Width o) && PrimFloat.ltb 0%float (Height o)
  then (Width o, Height o)
  else (0%float, 0%float).

(** The request built by [generatePDF] (generator.go, lines 116-159). *)
Definition printParams (o : PDFOptions) : page.PrintToPDFParams :=
  {| page.PrintBackground := PrintBackground o;
     page.Landscape := Landscape o;
     page.DisplayHeaderFooter := DisplayHeaderFooter o;
     page.Scale := Scale o;
     page.PaperWidth := fst (paperSize o);
     page.PaperHeight := snd (paperSize o);
     page.MarginTop := MarginTop o;
     page.MarginBottom := MarginBottom o;
     page.MarginLeft := MarginLeft o;
     page.MarginRight := MarginRight o;
     page.HeaderTemplate :=
       if negb (String.eqb (HeaderTemplate o) "") then HeaderTemplate o else "";
     page.FooterTemplate :=
       if negb (String.eqb (FooterTemplate o) "") then FooterTemplate o else "" |}.

(** ** The external world

    Everything that is not code of this package is gathered in one
    interface: the browser behind the chromedp client, whose replies are
    arbitrary, and [url.PathEscape] of the Go standard library. *)

Module chromedp.
(** The commands this package sends through the client. *)
Inductive Command : Type :=
| CmdNavigate (urlstr : string)
| CmdWaitReady (sel : string)
| CmdWaitVisible (sel : string)
| CmdSleep (d : Duration)
| CmdPrintToPDF (params : page.PrintToPDFParams).

(** What the client hands back for one command: an optional error, and
    for the print command the document. *)
Record Reply : Type := mkReply {
  data : bytes;
  err : option error
}.
End chromedp.

Class External : Type := {
  Browser : Type;
  (** [context.WithTimeout] followed by [chromedp.NewContext]. *)
  NewContext : Duration -> Browser -> Browser;
  (** the two deferred [cancel()] calls *)
  cancel : Browser -> Browser;
  (** the browser's answer to one command *)
  respond : Browser -> chromedp.Command -> Browser * chromedp.Reply;
  PathEscape : string -> string
}.

(** ** Heap and program state *)

Definition addr := nat.
Definition ptr := option addr.

(** The three struct types of the package.  [OptionsBuilder] and
    [Generator] both consist of the single field [options *PDFOptions]. *)
Inductive object : Type :=
| OPDFOptions (o : PDFOptions)
| OOptionsBuilder (options : ptr)
| OGenerator (options : ptr).

Record World `{External} : Type := mkWorld {
  heap : list object;
  browser : Browser;
  trace : list chromedp.Command
}.

Arguments mkWorld {_} heap browser trace.

Inductive Outcome `{External} (A : Type) : Type :=
| Returns (a : A) (w : World)
| Panics.
Arguments Returns {_ A} a w.
Arguments Panics {_ A}.

Definition M `{External} (A : Type) : Type := World -> Outcome A.

Definition ret `{External} {A} (a : A) : M A := fun w => Returns a w.

Definition bind `{External} {A B} (m : M A) (k : A -> M B) : M B :=
  fun w => match m w with
           | Returns a w' => k a w'
           | Panics => Panics
           end.

Declare Scope go_scope.
Delimit Scope go_scope with go.
Notation "'let*' x ':=' m 'in' k" := (bind m (fun x => k))
  (at level 10, x pattern, m at level 100, k at level 200) : go_scope.
Notation "m ;;; k" := (bind m (fun _ => k))
  (at level 100, right associativity) : go_scope.
Local Open Scope go_scope.

Section Primitives.
Context `{External}.

(** a nil pointer dereference *)
Definition panic {A} : M A := fun _ => Panics.

(** [*p] *)
Definition deref (p : ptr) : M object :=
  fun w => match p with
           | None => Panics
           | Some a => match heap w !! a with
                       | Some v => Returns v w
                       | None => Panics
                       end
           end.

(** [*p = v] *)
Definition store (p : ptr) (v : object) : M unit :=
  fun w => match p with
           | None => Panics
           | Some a => match heap w !! a with
                       | Some _ =>
                           Returns tt (mkWorld (<[a := v]> (heap w)) (browser w) (trace w))
                       | None => Panics
                       end
           end.

(** [&T{...}] *)
Definition new (v : object) : M ptr :=
  fun w => Returns (Some (length (heap w)))
                   (mkWorld (heap w ++ [v]) (browser w) (trace w)).

(** [x.options] for [x] a [*OptionsBuilder] or a [*Generator] *)
Definition options_of (x : ptr) : M ptr :=
  let* v := deref x in
  match v with
  | OOptionsBuilder options | OGenerator options => ret options
  | OPDFOptions _ => panic
  end.

(** the record behind a [*PDFOptions] *)
Definition load (p : ptr) : M PDFOptions :=
  let* v := deref p in
  match v with
  | OPDFOptions o => ret o
  | _ => panic
  end.

(** [x.options.F = v], with [set] the assignment to field [F] *)
Definition assign (x : ptr) (set : PDFOptions -> PDFOptions) : M unit :=
  let* p := options_of x in
  let* o := load p in
  store p (OPDFOptions (set o)).

(** one command sent to the browser, recorded in the trace *)
Definition issue (c : chromedp.Command) : M chromedp.Reply :=
  fun w => let '(b, r) := respond (browser w) c in
           Returns r (mkWorld (heap w) b (trace w ++ [c])).

Definition newContext (timeout : Duration) : M unit :=
  fun w => Returns tt (mkWorld (heap w) (NewContext timeout (browser w)) (trace w)).

Definition cancelContext : M unit :=
  fun w => Returns tt (mkWorld (heap w) (cancel (browser w)) (trace w)).
End Primitives.

(** ** [DefaultOptions], [NewGenerator] and [WithOptions] *)

Section Constructors.
Context `{External}.

Definition DefaultOptions : M ptr := new (OPDFOptions DefaultOptions_value).

Definition NewGenerator (options : ptr) : M ptr :=
  let* options := match options with
             | None => DefaultOptions
             | Some _ => ret options
             end in
  new (OGenerator options).

Definition WithOptions : M ptr :=
  let* options := DefaultOptions in
  new (OOptionsBuilder options).
End Constructors.

(** ** The chromedp actions used by the generator

    An action runs against the browser and reports an optional error.  The
    Go closures passed to [chromedp.ActionFunc] assign variables of the
    enclosing function; those captured variables are threaded through the
    actions as a value of type [V].  [Tasks] (and [Run], which executes its
    actions as one [Tasks]) runs the actions in order and stops at the
    first one that reports an error. *)

Module Action.
Section Actions.
Context `{External}.
Context {V : Type}.

Definition Action : Type := V -> M (V * option error).

Definition command (c : chromedp.Command) : Action :=
  fun v => let* r := issue c in ret (v, chromedp.err r).

Definition Navigate (urlstr : string) : Action := command (chromedp.CmdNavigate urlstr).
Definition WaitReady (sel : string) : Action := command (chromedp.CmdWaitReady sel).
Definition WaitVisible (sel : string) : Action := command (chromedp.CmdWaitVisible sel).
Definition Sleep (d : Duration) : Action := command (chromedp.CmdSleep d).

Definition ActionFunc (f : V -> M (V * option error)) : Action := f.

Fixpoint Tasks (actions : list Action) : Action :=
  match actions with
  | [] => fun v => ret (v, None)
  | a :: rest =>
      fun v => let* r := a v in
               match snd r with
               | Some e => ret (fst r, Some e)
               | None => Tasks rest (fst r)
               end
  end.

Definition Run (actions : list Action) : Action := Tasks actions.
End Actions.
Arguments Action {_} V.
End Action.

(** ** The generator ([generator.go]) *)

Module Generator.
Section Methods.
Context `{External}.

Definition waitForConditions {V} (g : ptr) : M (Action.Action V) :=
  let* p := options_of g in
  let* o := load p in
  let actions : list (Action.Action V) := [] in
  let actions :=
    if negb (String.eqb (WaitForSelector o) "")
    then (actions ++ [Action.WaitVisible (WaitForSelector o)])%list
    else actions in
  let actions :=
    if 0 <? WaitTime o
    then (actions ++ [Action.Sleep (WaitTime o)])%list
    else actions in
  if Nat.eqb (length actions) 0
  then ret (Action.Sleep (500 * time.Millisecond))
  else ret (Action.Tasks actions).

Definition generatePDF (g : ptr) : M (bytes * option error) :=
  let* p := options_of g in
  let* o := load p in
  let params := printParams o in
  let pdfData : bytes := None in
  let* r := Action.Run
              [Action.ActionFunc
                 (fun _ : bytes =>
                    let* reply := issue (chromedp.CmdPrintToPDF params) in
                    ret (chromedp.data reply, chromedp.err reply))]
              pdfData in
  match snd r with
  | Some e => ret (None, Some (fmt.Errorf "failed to generate PDF: " e))
  | None => ret (fst r, None)
  end.

Definition FromHTML (g : ptr) (htmlContent : string) : M (bytes * option error) :=
  let* p := options_of g in
  let* o := load p in
  newContext (Timeout o) ;;;
  let pdfData : bytes := None in
  let err : option error := None in
  let dataURL := "data:text/html;charset=utf-8," ++ PathEscape htmlContent in
  let* wait := waitForConditions g in
  let* r := Action.Run
              [Action.Navigate dataURL;
               Action.WaitReady "body";
               wait;
               Action.ActionFunc
                 (fun _ : bytes * option error =>
                    let* r := generatePDF g in
                    ret ((fst r, snd r), snd r))]
              (pdfData, err) in
  let pdfData := fst (fst r) in
  let err := snd r in
  let* result :=
    match err with
    | Some e => ret (None, Some (fmt.Errorf "failed to generate PDF: " e))
    | None => ret (pdfData, None)
    end in
  cancelContext ;;;
  ret result.

Definition FromURL (g : ptr) (url : string) : M (bytes * option error) :=
  let* p := options_of g in
  let* o := load p in
  newContext (Timeout o) ;;;
  let pdfData : bytes := None in
  let err : option error := None in
  let* wait := waitForConditions g in
  let* r := Action.Run
              [Action.Navigate url;
               Action.WaitReady "body";
               wait;
               Action.ActionFunc
                 (fun _ : bytes * option error =>
                    let* r := generatePDF g in
                    ret ((fst r, snd r), snd r))]
              (pdfData, err) in
  let pdfData := fst (fst r) in
  let err := snd r in
  let* result :=
    match err with
    | Some e => ret (None, Some (fmt.Errorf "failed to generate PDF from URL: " e))
    | None => ret (pdfData, None)
    end in
  cancelContext ;;;
  ret result.
End Methods.
End Generator.

(** ** Convenience functions *)

Section Convenience.
Context `{External}.

Definition FromHTML (htmlContent : string) : M (bytes * option error) :=
  let* options := DefaultOptions in
  let* generator := NewGenerator options in
  Generator.FromHTML generator htmlContent.

Definition FromURL (url : string) : M (bytes * option error) :=
  let* options := DefaultOptions in
  let* generator := NewGenerator options in
  Generator.FromURL generator url.
End Convenience.

(** ** The fluent builder ([builder.go]) *)

Module OptionsBuilder.
Section Methods.
Context `{External}.

Definition Format (b : ptr) (format : string) : M ptr :=
  assign b (set_Format format) ;;;
  ret b.

Definition Size (b : ptr) (width height : float64) : M ptr :=
  assign b (set_Width width) ;;;
  assign b (set_Height height) ;;;
  assign b (set_Format "") ;;;
  ret b.

Definition Margins (b : ptr) (top bottom left right : float64) : M ptr :=
  assign b (set_MarginTop top) ;;;
  assign b (set_MarginBottom bottom) ;;;
  assign b (set_MarginLeft left) ;;;
  assign b (set_MarginRight right) ;;;
  ret b.

Definition Landscape (b : ptr) : M ptr :=
  assign b (set_Landscape true) ;;;
  ret b.

Definition Portrait (b : ptr) : M ptr :=
  assign b (set_Landscape false) ;;;
  ret b.

Definition Scale (b : ptr) (scale : float64) : M ptr :=
  assign b (set_Scale scale) ;;;
  ret b.

Definition PrintBackground (b : ptr) (enable : bool) : M ptr :=
  assign b (set_PrintBackground enable) ;;;
  ret b.

Definition HeaderFooter (b : ptr) (header footer : string) : M ptr :=
  assign b (set_DisplayHeaderFooter true) ;;;
  assign b (set_HeaderTemplate header) ;;;
  assign b (set_FooterTemplate footer) ;;;
  ret b.

Definition WaitFor (b : ptr) (selector : string) : M ptr :=
  assign b (set_WaitForSelector selector) ;;;
  ret b.

Definition WaitTime (b : ptr) (duration : Duration) : M ptr :=
  assign b (set_WaitTime duration) ;;;
  ret b.

Definition Timeout (b : ptr) (duration : Duration) : M ptr :=
  assign b (set_Timeout duration) ;;;
  ret b.

Definition Build (b : ptr) : M ptr :=
  let* options := options_of b in
  NewGenerator options.

Definition Generate (b : ptr) (htmlContent : string) : M (bytes * option error) :=
  let* g := Build b in
  Generator.FromHTML g htmlContent.

Definition GenerateFromURL (b : ptr) (url : string) : M (bytes * option error) :=
  let* g := Build b in
  Generator.FromURL g url.
End Methods.
End OptionsBuilder.

(** * Reference semantics of a conversion *)

(** ** What a conversion sends, as a plain list

    [script o target] is the flattened list of commands that the four
    actions handed to [chromedp.Run] stand for.  [feed] plays a list of
    commands against the browser until one of them fails. *)

Definition waitCommands (o : PDFOptions) : list chromedp.Command :=
  match
    ((if negb (String.eqb (WaitForSelector o) "")
      then [chromedp.CmdWaitVisible (WaitForSelector o)] else []) ++
     (if 0 <? WaitTime o then [chromedp.CmdSleep (WaitTime o)] else []))%list
  with
  | [] => [chromedp.CmdSleep (500 * time.Millisecond)]
  | l => l
  end.

Definition script (o : PDFOptions) (target : string) : list chromedp.Command :=
  ([chromedp.CmdNavigate target; chromedp.CmdWaitReady "body"]
     ++ waitCommands o
     ++ [chromedp.CmdPrintToPDF (printParams o)])%list.

Definition isPrint (c : chromedp.Command) : bool :=
  match c with
  | chromedp.CmdPrintToPDF _ => true
  | _ => false
  end.

Definition noReply : chromedp.Reply := chromedp.mkReply None None.

Section Feed.
Context `{External}.

(** Returns the browser afterwards, the commands actually sent, and the
    reply to the last of them. *)
Fixpoint feed (b : Browser) (cs : list chromedp.Command) (last : chromedp.Reply)
  : Browser * list chromedp.Command * chromedp.Reply :=
  match cs with
  | [] => (b, [], last)
  | c :: rest =>
      let (b', r) := respond b c in
      match chromedp.err r with
      | Some _ => (b', [c], r)
      | None =>
          let '(b'', sent, r') := feed b' rest r in
          (b'', c :: sent, r')
      end
  end.

(** The value a conversion returns, from the commands sent and the last
    reply: the document when nothing failed; otherwise the client's
    error inside the conversion's prefix, and inside [generatePDF]'s own
    prefix as well when the failing command is the print. *)
Definition outcome (prefix : string) (sent : list chromedp.Command)
           (r : chromedp.Reply) : bytes * option error :=
  match chromedp.err r with
  | None => (chromedp.data r, None)
  | Some e =>
      (None,
       Some (fmt.Errorf prefix
               (if existsb isPrint sent
                then fmt.Errorf "failed to generate PDF: " e
                else e)))
  end.
End Feed.

(** A generator at address [g] over the options record [o] at address [p]. *)
Definition generator_at (hp : list object) (g p : addr) (o : PDFOptions) : Prop :=
  hp !! g = Some (OGenerator (Some p)) /\ hp !! p = Some (OPDFOptions o).

(** A builder at address [b] over the options record [o] at address [p]. *)
Definition builder_at (hp : list object) (b p : addr) (o : PDFOptions) : Prop :=
  hp !! b = Some (OOptionsBuilder (Some p)) /\ hp !! p = Some (OPDFOptions o).

(** * Vocabulary of the statements *)

(** ** What the claims say about a conversion *)

Definition dataURL `{External} (htmlContent : string) : string :=
  "data:text/html;charset=utf-8," ++ PathEscape htmlContent.

(** [call], started in [w], behaves as [feed] on [script o target] says:
    the shape established for both conversions by [FromHTML_run] and
    [FromURL_run]. *)
Definition runs_script `{External} (call : M (bytes * option error)) (w : World)
           (o : PDFOptions) (target prefix : string) : Prop :=
  call w =
  let '(b', sent, r) :=
    feed (NewContext (Timeout o) (browser w)) (script o target) noReply in
  Returns (outcome prefix sent r) (mkWorld (heap w) (cancel b') (trace w ++ sent)).

(** The commands of [cs] are sent in order, each at most once, up to and
    including the first one the browser fails; all of them when the call
    reports no error. *)
Definition sends_in_order `{External} (call : M (bytes * option error)) (w : World)
           (cs : list chromedp.Command) : Prop :=
  exists r w' sent rest,
    call w = Returns r w'
    /\ trace w' = (trace w ++ sent)%list
    /\ cs = (sent ++ rest)%list
    /\ (snd r = None -> rest = [])
    /\ (forall e, snd r = Some e ->
        exists pre c b0 b1 reply,
          sent = (pre ++ [c])%list /\ respond b0 c = (b1, reply)
          /\ chromedp.err reply <> None).


Definition leaves_heap `{External} (call : M (bytes * option error)) (w : World) : Prop :=
  exists r w', call w = Returns r w' /\ heap w' = heap w.

(** ** What the claims say about the print request *)

Definition namedFormats : list string := ["A4"; "A3"; "Letter"; "Legal"; "Tabloid"].

(** How [generatePDF] chooses the paper size [(pw, ph)] of the request. *)
Definition paper_size_rule (o : PDFOptions) (pw ph : float64) : Prop :=
  (Format o = "A4" -> pw = 8.27%float /\ ph = 11.7%float)
  /\ (Format o = "A3" -> pw = 11.7%float /\ ph = 16.5%float)
  /\ (Format o = "Letter" -> pw = 8.5%float /\ ph = 11.0%float)
  /\ (Format o = "Legal" -> pw = 8.5%float /\ ph = 14.0%float)
  /\ (Format o = "Tabloid" -> pw = 11.0%float /\ ph = 17.0%float)
  /\ (Format o <> "" -> ~ In (Format o) namedFormats ->
      pw = 0%float /\ ph = 0%float)
  /\ (Format o = "" ->
      PrimFloat.ltb 0%float (Width o) = true ->
      PrimFloat.ltb 0%float (Height o) = true ->
      pw = Width o /\ ph = Height o)
  /\ (Format o = "" ->
      PrimFloat.ltb 0%float (Width o) && PrimFloat.ltb 0%float (Height o) = false ->
      pw = 0%float /\ ph = 0%float).

(** The fields that the request takes over unchanged. *)
Definition copied_fields (o : PDFOptions) (params : page.PrintToPDFParams) : Prop :=
  page.PrintBackground params = PrintBackground o
  /\ page.Landscape params = Landscape o
  /\ page.DisplayHeaderFooter params = DisplayHeaderFooter o
  /\ page.Scale params = Scale o
  /\ page.MarginTop params = MarginTop o
  /\ page.MarginBottom params = MarginBottom o
  /\ page.MarginLeft params = MarginLeft o
  /\ page.MarginRight params = MarginRight o
  /\ page.HeaderTemplate params = HeaderTemplate o
  /\ page.FooterTemplate params = FooterTemplate o.

(** ** Builder calls and the fields they write *)

(** The sixteen fields of [PDFOptions] and the values they hold. *)
Inductive Field : Type :=
| FFormat | FWidth | FHeight
| FMarginTop | FMarginBottom | FMarginLeft | FMarginRight
| FLandscape | FPrintBackground | FScale
| FDisplayHeaderFooter | FHeaderTemplate | FFooterTemplate
| FWaitForSelector | FWaitTime | FTimeout.

Inductive Value : Type :=
| VString (s : string)
| VFloat (x : float64)
| VBool (b : bool)
| VDuration (d : Duration).

Definition get (f : Field) (o : PDFOptions) : Value :=
  match f with
  | FFormat => VString (Format o)
  | FWidth => VFloat (Width o)
  | FHeight => VFloat (Height o)
  | FMarginTop => VFloat (MarginTop o)
  | FMarginBottom => VFloat (MarginBottom o)
  | FMarginLeft => VFloat (MarginLeft o)
  | FMarginRight => VFloat (MarginRight o)
  | FLandscape => VBool (Landscape o)
  | FPrintBackground => VBool (PrintBackground o)
  | FScale => VFloat (Scale o)
  | FDisplayHeaderFooter => VBool (DisplayHeaderFooter o)
  | FHeaderTemplate => VString (HeaderTemplate o)
  | FFooterTemplate => VString (FooterTemplate o)
  | FWaitForSelector => VString (WaitForSelector o)
  | FWaitTime => VDuration (WaitTime o)
  | FTimeout => VDuration (Timeout o)
  end.

(** A call of one of the eleven configuration methods, with its arguments. *)
Inductive Call : Type :=
| CallFormat (format : string)
| CallSize (width height : float64)
| CallMargins (top bottom left right : float64)
| CallLandscape
| CallPortrait
| CallScale (scale : float64)
| CallPrintBackground (enable : bool)
| CallHeaderFooter (header footer : string)
| CallWaitFor (selector : string)
| CallWaitTime (duration : Duration)
| CallTimeout (duration : Duration).

Definition invoke `{External} (c : Call) (b : ptr) : M ptr :=
  match c with
  | CallFormat format => OptionsBuilder.Format b format
  | CallSize width height => OptionsBuilder.Size b width height
  | CallMargins top bottom l r => OptionsBuilder.Margins b top bottom l r
  | CallLandscape => OptionsBuilder.Landscape b
  | CallPortrait => OptionsBuilder.Portrait b
  | CallScale scale => OptionsBuilder.Scale b scale
  | CallPrintBackground enable => OptionsBuilder.PrintBackground b enable
  | CallHeaderFooter header footer => OptionsBuilder.HeaderFooter b header footer
  | CallWaitFor selector => OptionsBuilder.WaitFor b selector
  | CallWaitTime duration => OptionsBuilder.WaitTime b duration
  | CallTimeout duration => OptionsBuilder.Timeout b duration
  end.

(** The fields a call writes, with the values written. *)
Definition writes (c : Call) : list (Field * Value) :=
  match c with
  | CallFormat format => [(FFormat, VString format)]
  | CallSize width height =>
      [(FWidth, VFloat width); (FHeight, VFloat height); (FFormat, VString "")]
  | CallMargins top bottom l r =>
      [(FMarginTop, VFloat top); (FMarginBottom, VFloat bottom);
       (FMarginLeft, VFloat l); (FMarginRight, VFloat r)]
  | CallLandscape => [(FLandscape, VBool true)]
  | CallPortrait => [(FLandscape, VBool false)]
  | CallScale scale => [(FScale, VFloat scale)]
  | CallPrintBackground enable => [(FPrintBackground, VBool enable)]
  | CallHeaderFooter header footer =>
      [(FDisplayHeaderFooter, VBool true);
       (FHeaderTemplate, VString header); (FFooterTemplate, VString footer)]
  | CallWaitFor selector => [(FWaitForSelector, VString selector)]
  | CallWaitTime duration => [(FWaitTime, VDuration duration)]
  | CallTimeout duration => [(FTimeout, VDuration duration)]
  end.

(** The arguments handed to a call. *)
Definition arguments (c : Call) : list Value :=
  match c with
  | CallFormat format => [VString format]
  | CallSize width height => [VFloat width; VFloat height]
  | CallMargins top bottom l r =>
      [VFloat top; VFloat bottom; VFloat l; VFloat r]
  | CallLandscape | CallPortrait => []
  | CallScale scale => [VFloat scale]
  | CallPrintBackground enable => [VBool enable]
  | CallHeaderFooter header footer => [VString header; VString footer]
  | CallWaitFor selector => [VString selector]
  | CallWaitTime duration => [VDuration duration]
  | CallTimeout duration => [VDuration duration]
  end.

(** What a call makes of the record. *)
Definition updated (c : Call) (o : PDFOptions) : PDFOptions :=
  match c with
  | CallFormat format => set_Format format o
  | CallSize width height => set_Format "" (set_Height height (set_Width width o))
  | CallMargins top bottom l r =>
      set_MarginRight r (set_MarginLeft l
        (set_MarginBottom bottom (set_MarginTop top o)))
  | CallLandscape => set_Landscape true o
  | CallPortrait => set_Landscape false o
  | CallScale scale => set_Scale scale o
  | CallPrintBackground enable => set_PrintBackground enable o
  | CallHeaderFooter header footer =>
      set_FooterTemplate footer (set_HeaderTemplate header
        (set_DisplayHeaderFooter true o))
  | CallWaitFor selector => set_WaitForSelector selector o
  | CallWaitTime duration => set_WaitTime duration o
  | CallTimeout duration => set_Timeout duration o
  end.

(** ** The expressions of the convenience claims *)

(** The four expressions the convenience functions are said to equal,
    written as the specification words them. *)
Section ConvenienceSpec.
Context `{External}.

(** [NewGenerator(DefaultOptions()).FromHTML(html)] *)
Definition spec_FromHTML (html : string) : M (bytes * option error) :=
  bind (bind DefaultOptions NewGenerator) (fun g => Generator.FromHTML g html).

(** [NewGenerator(DefaultOptions()).FromURL(url)] *)
Definition spec_FromURL (url : string) : M (bytes * option error) :=
  bind (bind DefaultOptions NewGenerator) (fun g => Generator.FromURL g url).

(** [Build().FromHTML(html)] *)
Definition spec_Generate (b : ptr) (html : string) : M (bytes * option error) :=
  bind (OptionsBuilder.Build b) (fun g => Generator.FromHTML g html).

(** [Build().FromURL(url)] *)
Definition spec_GenerateFromURL (b : ptr) (url : string) : M (bytes * option error) :=
  bind (OptionsBuilder.Build b) (fun g => Generator.FromURL g url).
End ConvenienceSpec.

(** ** A concrete browser and example data

    [scripted] answers the commands it receives from a list of prepared
    replies and, once the list is used up, succeeds, with an empty document
    for the print command.  It is the browser of the worked examples. *)

Definition scripted : External :=
  {| Browser := list chromedp.Reply;
     NewContext := fun _ b => b;
     cancel := fun b => b;
     respond := fun b c =>
       match b with
       | [] => ([], chromedp.mkReply (if isPrint c then Some [] else None) None)
       | r :: rest => (rest, r)
       end;
     PathEscape := fun s => s |}.

(** A state of the program in front of the scripted browser: nothing sent
    yet. *)
Definition scripted_world (hp : list object) (replies : list chromedp.Reply)
  : @World scripted :=
  @mkWorld scripted hp replies [].

(** The heap left by [NewGenerator(DefaultOptions())]. *)
Definition default_heap : list object :=
  [OPDFOptions DefaultOptions_value; OGenerator (Some 0%nat)].

(** The heap left by [WithOptions()]. *)
Definition builder_heap : list object :=
  [OPDFOptions DefaultOptions_value; OOptionsBuilder (Some 0%nat)].

(** The default options with a custom size of 5 by 7 inches added. *)
Definition five_by_seven : PDFOptions :=
  set_Width 5%float (set_Height 7%float DefaultOptions_value).

(** The same with a format name that [generatePDF] does not know. *)
Definition a5_five_by_seven : PDFOptions := set_Format "A5" five_by_seven.

Definition succeeded : chromedp.Reply := chromedp.mkReply None None.

Definition navigation_aborted : chromedp.Reply :=
  chromedp.mkReply None (Some (ClientError "net::ERR_ABORTED")).

Definition printing_failed : chromedp.Reply :=
  chromedp.mkReply None (Some (ClientError "Printing failed (-32000)")).

(** ** Vocabulary of the further properties *)

(** The fields a call writes. *)
Definition fields (c : Call) : list Field := map fst (writes c).


(** ** The run of a conversion against the browser *)

Section RunVocabulary.
Context `{External}.

(** The browser after the commands [cs] have all been sent to it. *)
Fixpoint after (b : Browser) (cs : list chromedp.Command) : Browser :=
  match cs with
  | [] => b
  | c :: rest => after (fst (respond b c)) rest
  end.

(** The browser's reply to [c] when [c] is sent after the commands [pre]. *)
Definition reply_after (b : Browser) (pre : list chromedp.Command)
           (c : chromedp.Command) : chromedp.Reply :=
  snd (respond (after b pre) c).

(** Every command of [cs], sent in order to [b], is answered without
    error. *)
Fixpoint all_succeed (b : Browser) (cs : list chromedp.Command) : Prop :=
  match cs with
  | [] => True
  | c :: rest =>
      chromedp.err (snd (respond b c)) = None
      /\ all_succeed (fst (respond b c)) rest
  end.

(** The browser a conversion over the record [o] talks to: the browser of
    [w] in a context opened with the record's [Timeout]. *)
Definition context_of (w : World) (o : PDFOptions) : Browser :=
  NewContext (Timeout o) (browser w).

(** [call] sends the commands of [cs] to [b0], in order, and stops at the
    first one that [b0] fails: the commands sent are [pre] and then [c],
    every command of [pre] is answered without error, and [c] is either
    the last command of [cs] or answered with an error.  The call reports
    an error exactly when [c] is answered with one. *)
Definition stops_at_first_failure (call : M (bytes * option error)) (w : World)
           (b0 : Browser) (cs : list chromedp.Command) : Prop :=
  exists r w' pre c rest,
    call w = Returns r w'
    /\ trace w' = (trace w ++ pre ++ [c])%list
    /\ cs = (pre ++ [c] ++ rest)%list
    /\ all_succeed b0 pre
    /\ (rest <> [] -> chromedp.err (reply_after b0 pre c) <> None)
    /\ (chromedp.err (reply_after b0 pre c) = None -> rest = [])
    /\ (snd r = None <-> chromedp.err (reply_after b0 pre c) = None).

(** The first error the browser [b0] reports in the run decides the
    result: the command [c] it is reported for is the last one sent, and
    the call returns the nil slice and that error wrapped in [prefix] (and
    in the prefix of [generatePDF] when [c] is the print); the client's
    error is in the chain reached by [Unwrap].  The call reports an error
    only in that case. *)
Definition propagates_client_error (call : M (bytes * option error)) (w : World)
           (b0 : Browser) (cs : list chromedp.Command) (prefix : string) : Prop :=
  exists r w' pre c rest,
    call w = Returns r w'
    /\ trace w' = (trace w ++ pre ++ [c])%list
    /\ cs = (pre ++ [c] ++ rest)%list
    /\ all_succeed b0 pre
    /\ (forall e, chromedp.err (reply_after b0 pre c) = Some e ->
        exists err',
          r = (None, Some err')
          /\ err' = fmt.Errorf prefix
                      (if isPrint c
                       then fmt.Errorf "failed to generate PDF: " e
                       else e)
          /\ In e (errors.chain err'))
    /\ (snd r <> None -> chromedp.err (reply_after b0 pre c) <> None).

(** The result of [call] is the slice of the print reply with no error,
    when every command up to and including the print is answered without
    error, and the nil slice with an error otherwise; never a slice
    together with an error.  The slice is the client's, unchecked: the
    result is nil with no error exactly when the client answers the print
    with a nil slice and no error. *)
Definition bytes_xor_error (call : M (bytes * option error)) (w : World)
           (b0 : Browser) (o : PDFOptions) (cs : list chromedp.Command) : Prop :=
  exists r w' pre c rest,
    call w = Returns r w'
    /\ cs = (pre ++ [c] ++ rest)%list
    /\ all_succeed b0 pre
    /\ ((chromedp.err (reply_after b0 pre c) = None
         /\ c = chromedp.CmdPrintToPDF (printParams o) /\ rest = []
         /\ r = (chromedp.data (reply_after b0 pre c), None))
        \/ (chromedp.err (reply_after b0 pre c) <> None
            /\ fst r = None /\ snd r <> None))
    /\ ~ (fst r <> None /\ snd r <> None)
    /\ (fst r = None /\ snd r = None <->
        chromedp.err (reply_after b0 pre c) = None
        /\ chromedp.data (reply_after b0 pre c) = None).

(** The print command is sent only as the last command of [cs] and only
    after every command before it was answered without error; a call that
    does not get as far as the print returns the nil slice and the
    client's error for the last command sent, inside [prefix]. *)
Definition prints_after_success (call : M (bytes * option error)) (w : World)
           (b0 : Browser) (cs : list chromedp.Command) (prefix : string) : Prop :=
  exists r w' pre c rest,
    call w = Returns r w'
    /\ trace w' = (trace w ++ pre ++ [c])%list
    /\ cs = (pre ++ [c] ++ rest)%list
    /\ all_succeed b0 pre
    /\ existsb isPrint pre = false
    /\ (isPrint c = true -> rest = [])
    /\ (isPrint c = false ->
        exists e,
          chromedp.err (reply_after b0 pre c) = Some e
          /\ r = (None, Some (fmt.Errorf prefix e))).
End RunVocabulary.

(** ** Pointers handed to [NewGenerator], chains of builder calls *)

(** A [*PDFOptions] is nil or points to an options record. *)
Definition options_ok (hp : list object) (options : ptr) : Prop :=
  match options with
  | None => True
  | Some a => exists o, hp !! a = Some (OPDFOptions o)
  end.

(** A chain [b.M1(...).M2(...)...] of configuration calls. *)
Fixpoint invoke_all `{External} (calls : list Call) (b : ptr) : M ptr :=
  match calls with
  | [] => ret b
  | c :: rest => bind (invoke c b) (invoke_all rest)
  end.

(** What a chain of calls makes of the record. *)
Fixpoint updated_all (calls : list Call) (o : PDFOptions) : PDFOptions :=
  match calls with
  | [] => o
  | c :: rest => updated_all rest (updated c o)
  end.

Definition is_Format (c : Call) : bool :=
  match c with
  | CallFormat _ => true
  | _ => false
  end.

Definition is_Size (c : Call) : bool :=
  match c with
  | CallSize _ _ => true
  | _ => false
  end.

(** * Proofs *)

Ltac go_unfold :=
  unfold Generator.FromHTML, Generator.FromURL, Generator.generatePDF,
    Generator.waitForConditions, Action.Run, Action.ActionFunc,
    Action.Navigate, Action.WaitReady, Action.WaitVisible, Action.Sleep,
    Action.command, assign, options_of, load, deref, store, issue,
    newContext, cancelContext, bind, ret, panic, fmt.Errorf.

Ltac go_simpl :=
  repeat (progress (go_unfold; cbn -[printParams String.eqb Z.ltb Z.mul]));
  cbn [Action.Tasks].

Ltac go_run_with rw :=
  repeat first
    [ progress (go_simpl; rw)
    | match goal with
      | |- context [respond ?b ?c] => destruct (respond b c) as [? [? [?|]]]
      end ].

Ltac go_run Hg Hp := go_run_with ltac:(rewrite ?Hg, ?Hp).

Section Runs.
Context `{External}.

Lemma generatePDF_run hp g p o b t :
  generator_at hp g p o ->
  Generator.generatePDF (Some g) (mkWorld hp b t) =
  let '(b', r) := respond b (chromedp.CmdPrintToPDF (printParams o)) in
  Returns (match chromedp.err r with
           | Some e => (None, Some (fmt.Errorf "failed to generate PDF: " e))
           | None => (chromedp.data r, None)
           end)
          (mkWorld hp b' (t ++ [chromedp.CmdPrintToPDF (printParams o)])).
Proof.
  intros [Hg Hp]. go_run Hg Hp; reflexivity.
Qed.

Ltac conversion_cases o Hg Hp :=
  let Hsel := fresh "Hsel" in
  let Hwt := fresh "Hwt" in
  unfold script, waitCommands, outcome;
  destruct (String.eqb (WaitForSelector o) "") eqn:Hsel;
  destruct (0 <? WaitTime o) eqn:Hwt;
  go_run_with ltac:(rewrite ?Hg, ?Hp, ?Hsel, ?Hwt);
  rewrite <- ?app_assoc; reflexivity.

Lemma FromHTML_run hp g p o b t htmlContent :
  generator_at hp g p o ->
  Generator.FromHTML (Some g) htmlContent (mkWorld hp b t) =
  let '(b', sent, r) :=
    feed (NewContext (Timeout o) b)
         (script o ("data:text/html;charset=utf-8," ++ PathEscape htmlContent))
         noReply in
  Returns (outcome "failed to generate PDF: " sent r)
          (mkWorld hp (cancel b') (t ++ sent)).
Proof.
  intros [Hg Hp]. unfold Generator.FromHTML.
  generalize ("data:text/html;charset=utf-8," ++ PathEscape htmlContent).
  intros target. conversion_cases o Hg Hp.
Qed.

Lemma FromURL_run hp g p o b t url :
  generator_at hp g p o ->
  Generator.FromURL (Some g) url (mkWorld hp b t) =
  let '(b', sent, r) := feed (NewContext (Timeout o) b) (script o url) noReply in
  Returns (outcome "failed to generate PDF from URL: " sent r)
          (mkWorld hp (cancel b') (t ++ sent)).
Proof.
  intros [Hg Hp]. conversion_cases o Hg Hp.
Qed.
End Runs.

(** ** The print request *)

Lemma paperSize_named_format o w h :
  Format o <> "" ->
  paperSize (set_Width w (set_Height h o)) = paperSize o.
Proof.
  intros Hne. unfold paperSize. cbn [Format set_Width set_Height].
  apply String.eqb_neq in Hne. rewrite Hne. reflexivity.
Qed.

Lemma paperSize_unknown_format o :
  Format o <> "" -> ~ In (Format o) namedFormats ->
  paperSize o = (0%float, 0%float).
Proof.
  intros Hne Hnot. unfold paperSize.
  apply String.eqb_neq in Hne. rewrite Hne. cbn [negb].
  repeat match goal with
         | |- context [String.eqb (Format o) ?s] =>
             destruct (String.eqb_spec (Format o) s) as [Heq|_];
             [ exfalso; apply Hnot; rewrite Heq; cbn; tauto | ]
         end.
  reflexivity.
Qed.

(** C9: when [Format] is non-empty, the request sent by [generatePDF] does
    not depend on [Width] and [Height] (it is the same request whatever
    values these two fields hold), and when that non-empty [Format] is none
    of "A4", "A3", "Letter", "Legal", "Tabloid" the request's paper width
    and paper height are zero. *)
Theorem generatePDF_named_format_ignores_size `{External} hp g p o b t :
  generator_at hp g p o ->
  Format o <> "" ->
  exists params r b',
    Generator.generatePDF (Some g) (mkWorld hp b t)
      = Returns r (mkWorld hp b' (t ++ [chromedp.CmdPrintToPDF params]))
    /\ (forall w h, params = printParams (set_Width w (set_Height h o)))
    /\ (~ In (Format o) namedFormats ->
        page.PaperWidth params = 0%float /\ page.PaperHeight params = 0%float).
Proof.
  intros Hgen Hne.
  pose proof (generatePDF_run hp g p o b t Hgen) as Hrun.
  destruct (respond b (chromedp.CmdPrintToPDF (printParams o))) as [b' r].
  exists (printParams o). eexists. exists b'. split; [exact Hrun|]. split.
  - intros w h. unfold printParams.
    rewrite (paperSize_named_format o w h Hne). reflexivity.
  - intros Hnot. unfold printParams. cbn [page.PaperWidth page.PaperHeight].
    rewrite (paperSize_unknown_format o Hne Hnot). split; reflexivity.
Qed.

Lemma generatePDF_named_format_ignores_size_witness :
  exists params r b',
    @Generator.generatePDF scripted (Some 1%nat)
      (scripted_world [OPDFOptions a5_five_by_seven; OGenerator (Some 0%nat)] [])
      = Returns r (@mkWorld scripted
                     [OPDFOptions a5_five_by_seven; OGenerator (Some 0%nat)] b'
                     ([] ++ [chromedp.CmdPrintToPDF params]))
    /\ (forall w h, params = printParams (set_Width w (set_Height h a5_five_by_seven)))
    /\ (~ In (Format a5_five_by_seven) namedFormats ->
        page.PaperWidth params = 0%float /\ page.PaperHeight params = 0%float).
Proof.
  apply (@generatePDF_named_format_ignores_size scripted
           [OPDFOptions a5_five_by_seven; OGenerator (Some 0%nat)] 1%nat 0%nat
           a5_five_by_seven [] []).
  - split; reflexivity.
  - vm_compute. discriminate.
Defined.

(** ** Facts about [feed] and [script] *)

Section FeedFacts.
Context `{External}.

Lemma feed_prefix cs : forall b last b' sent r,
  feed b cs last = (b', sent, r) -> exists rest, cs = (sent ++ rest)%list.
Proof.
  induction cs as [|c cs IH]; intros b last b' sent r Hfeed; cbn in Hfeed.
  - inversion Hfeed; subst. exists []. reflexivity.
  - destruct (respond b c) as [b1 r1].
    destruct (chromedp.err r1) as [e|].
    + inversion Hfeed; subst. exists cs. reflexivity.
    + destruct (feed b1 cs r1) as [[b2 sent2] r2] eqn:Hrec.
      inversion Hfeed; subst.
      destruct (IH _ _ _ _ _ Hrec) as [rest ->]. exists rest. reflexivity.
Qed.

Lemma feed_success cs : forall b last b' sent r,
  feed b cs last = (b', sent, r) -> chromedp.err r = None -> sent = cs.
Proof.
  induction cs as [|c cs IH]; intros b last b' sent r Hfeed Hok; cbn in Hfeed.
  - inversion Hfeed; subst. reflexivity.
  - destruct (respond b c) as [b1 r1].
    destruct (chromedp.err r1) as [e|] eqn:He.
    + inversion Hfeed; subst. congruence.
    + destruct (feed b1 cs r1) as [[b2 sent2] r2] eqn:Hrec.
      inversion Hfeed; subst. f_equal. eapply IH; eauto.
Qed.

(** The reply that [feed] returns is the browser's answer to the last
    command sent. *)
Lemma feed_last_reply cs : forall b last b' sent r,
  feed b cs last = (b', sent, r) -> cs <> [] ->
  exists pre c b0, sent = (pre ++ [c])%list /\ respond b0 c = (b', r).
Proof.
  induction cs as [|c cs IH]; intros b last b' sent r Hfeed Hne; [congruence|].
  cbn in Hfeed. destruct (respond b c) as [b1 r1] eqn:Hresp.
  destruct (chromedp.err r1) as [e|] eqn:He.
  - inversion Hfeed; subst. exists [], c, b. split; [reflexivity|exact Hresp].
  - destruct (feed b1 cs r1) as [[b2 sent2] r2] eqn:Hrec.
    inversion Hfeed; subst. destruct cs as [|c' cs'].
    + cbn in Hrec. inversion Hrec; subst.
      exists [], c, b. split; [reflexivity|exact Hresp].
    + destruct (IH _ _ _ _ _ Hrec) as (pre & c0 & b0 & -> & Hr); [discriminate|].
      exists (c :: pre), c0, b0. split; [reflexivity|exact Hr].
Qed.
End FeedFacts.

Lemma waitCommands_not_print o : existsb isPrint (waitCommands o) = false.
Proof.
  unfold waitCommands.
  destruct (negb (String.eqb (WaitForSelector o) "")), (0 <? WaitTime o); reflexivity.
Qed.

Lemma existsb_prefix {A} (f : A -> bool) (l1 l2 : list A) :
  existsb f (l1 ++ l2) = false -> existsb f l1 = false.
Proof.
  rewrite existsb_app. apply orb_false_iff.
Qed.

Lemma split_before_last {A} (l1 : list A) : forall l3 x l2 y,
  (l1 ++ x :: l2 = l3 ++ [y])%list -> exists l4, l3 = (l1 ++ l4)%list.
Proof.
  induction l1 as [|a l1 IH]; intros l3 x l2 y Heq.
  - exists l3. reflexivity.
  - destruct l3 as [|b l3]; cbn in Heq.
    + inversion Heq as [[Ha Hnil]]. destruct l1; discriminate.
    + inversion Heq as [[Ha Htl]]. subst b.
      destruct (IH _ _ _ _ Htl) as [l4 ->]. exists l4. reflexivity.
Qed.

(** In a conversion the print command can only be the last command sent. *)
Lemma script_print_last o target pre c rest :
  script o target = (pre ++ [c] ++ rest)%list ->
  existsb isPrint (pre ++ [c]) = isPrint c.
Proof.
  intros Hs. rewrite existsb_app. cbn. rewrite orb_false_r.
  replace (existsb isPrint pre) with false; [reflexivity|].
  symmetry. unfold script in Hs. rewrite app_assoc in Hs.
  symmetry in Hs. apply split_before_last in Hs. destruct Hs as [l4 Hl4].
  apply (existsb_prefix isPrint pre l4). rewrite <- Hl4.
  rewrite existsb_app, waitCommands_not_print. reflexivity.
Qed.

(** ** Conversions: commands, results, errors, frame *)

Lemma FromHTML_runs_script `{External} hp g p o b t htmlContent :
  generator_at hp g p o ->
  runs_script (Generator.FromHTML (Some g) htmlContent) (mkWorld hp b t)
              o (dataURL htmlContent) "failed to generate PDF: ".
Proof. intros Hgen. exact (FromHTML_run hp g p o b t htmlContent Hgen). Qed.

Lemma FromURL_runs_script `{External} hp g p o b t url :
  generator_at hp g p o ->
  runs_script (Generator.FromURL (Some g) url) (mkWorld hp b t)
              o url "failed to generate PDF from URL: ".
Proof. intros Hgen. exact (FromURL_run hp g p o b t url Hgen). Qed.

Lemma script_nonempty o target : script o target <> [].
Proof. discriminate. Qed.

Lemma runs_script_sends_in_order `{External} call w o target prefix :
  runs_script call w o target prefix ->
  sends_in_order call w (script o target).
Proof.
  unfold runs_script, sends_in_order. intros Hrun.
  destruct (feed _ _ _) as [[b' sent] r] eqn:Hfeed.
  destruct (feed_prefix _ _ _ _ _ _ Hfeed) as [rest Hrest].
  exists (outcome prefix sent r), (mkWorld (heap w) (cancel b') (trace w ++ sent)), sent, rest.
  split; [exact Hrun|]. split; [reflexivity|]. split; [exact Hrest|]. split.
  - unfold outcome. destruct (chromedp.err r) as [e|] eqn:He; [discriminate|].
    intros _. apply (feed_success _ _ _ _ _ _ Hfeed) in He.
    rewrite He in Hrest. rewrite <- (app_nil_r (script o target)) in Hrest at 1.
    apply app_inv_head in Hrest. symmetry. exact Hrest.
  - intros e He.
    destruct (feed_last_reply _ _ _ _ _ _ Hfeed (script_nonempty o target))
      as (pre & c & b0 & Hsent & Hresp).
    exists pre, c, b0, b', r. split; [exact Hsent|]. split; [exact Hresp|].
    unfold outcome in He. destruct (chromedp.err r); [discriminate|].
    cbn in He. discriminate.
Qed.

(** C1 (as stated) fails: when the browser fails the navigation, the only
    command sent is the navigation; nothing is waited for and nothing is
    printed. *)
Lemma FromHTML_failed_navigation_sends_one_command :
  exists r w,
    @Generator.FromHTML scripted (Some 1%nat) "hello"
      (scripted_world default_heap [navigation_aborted]) = Returns r w
    /\ trace w = [chromedp.CmdNavigate "data:text/html;charset=utf-8,hello"]
    /\ trace w <> script DefaultOptions_value "data:text/html;charset=utf-8,hello".
Proof.
  eexists. eexists. split; [vm_compute; reflexivity|].
  split; [reflexivity|discriminate].
Qed.

Lemma chain_self e : In e (errors.chain e).
Proof. destruct e; cbn; auto. Qed.


(** C3 (as stated) fails: the browser fails the print command with
    "Printing failed (-32000)", and [FromURL] returns a different error
    value, the client's error wrapped twice, with a different message. *)
Lemma FromURL_print_error_is_wrapped :
  exists r w e,
    @Generator.FromURL scripted (Some 1%nat) "https://example.com"
      (scripted_world default_heap [succeeded; succeeded; succeeded; printing_failed])
      = Returns r w
    /\ chromedp.err printing_failed = Some (ClientError "Printing failed (-32000)")
    /\ snd r = Some e
    /\ e <> ClientError "Printing failed (-32000)"
    /\ errors.Error e =
       "failed to generate PDF from URL: failed to generate PDF: Printing failed (-32000)".
Proof.
  eexists. eexists. eexists. split; [vm_compute; reflexivity|].
  split; [reflexivity|]. split; [reflexivity|]. split; [discriminate|reflexivity].
Qed.

(** ** The options are only read *)

Lemma runs_script_leaves_heap `{External} call w o target prefix :
  runs_script call w o target prefix -> leaves_heap call w.
Proof.
  unfold runs_script, leaves_heap. intros Hrun.
  destruct (feed _ _ _) as [[b' sent] r].
  eexists. eexists. split; [exact Hrun|reflexivity].
Qed.

(** C5: a conversion, whether it succeeds or fails, only reads the
    configuration record: after the call the heap is the one before the
    call, so the generator still points to the same record and every field
    of that record holds the value it held before. *)
Theorem conversion_leaves_options_unchanged `{External} hp g p o b t input :
  generator_at hp g p o ->
  (exists r w', Generator.FromHTML (Some g) input (mkWorld hp b t) = Returns r w'
                /\ heap w' = hp /\ generator_at (heap w') g p o)
  /\ (exists r w', Generator.FromURL (Some g) input (mkWorld hp b t) = Returns r w'
                   /\ heap w' = hp /\ generator_at (heap w') g p o).
Proof.
  intros Hgen. split.
  - destruct (runs_script_leaves_heap _ _ _ _ _
                (FromHTML_runs_script hp g p o b t input Hgen)) as (r & w' & Hrun & Hheap).
    exists r, w'. cbn in Hheap. rewrite Hheap. auto.
  - destruct (runs_script_leaves_heap _ _ _ _ _
                (FromURL_runs_script hp g p o b t input Hgen)) as (r & w' & Hrun & Hheap).
    exists r, w'. cbn in Hheap. rewrite Hheap. auto.
Qed.

Lemma conversion_leaves_options_unchanged_witness :
  (exists r w', @Generator.FromHTML scripted (Some 1%nat) "invoice"
                  (@mkWorld scripted default_heap [printing_failed] []) = Returns r w'
                /\ heap w' = default_heap
                /\ generator_at (heap w') 1%nat 0%nat DefaultOptions_value)
  /\ (exists r w', @Generator.FromURL scripted (Some 1%nat) "invoice"
                     (@mkWorld scripted default_heap [printing_failed] []) = Returns r w'
                   /\ heap w' = default_heap
                   /\ generator_at (heap w') 1%nat 0%nat DefaultOptions_value).
Proof.
  apply (@conversion_leaves_options_unchanged scripted default_heap 1%nat 0%nat
           DefaultOptions_value [printing_failed] [] "invoice").
  split; reflexivity.
Defined.

(** ** The translation of the options into the print request *)

Lemma paperSize_rule o : paper_size_rule o (fst (paperSize o)) (snd (paperSize o)).
Proof.
  unfold paper_size_rule.
  repeat match goal with |- _ /\ _ => split end.
  1-5: intros Heq; unfold paperSize; rewrite Heq; cbn; split; reflexivity.
  - intros Hne Hnot. rewrite (paperSize_unknown_format o Hne Hnot).
    split; reflexivity.
  - intros Heq Hw Hh. unfold paperSize. rewrite Heq, Hw, Hh. split; reflexivity.
  - intros Heq Hwh. unfold paperSize. rewrite Heq, Hwh. split; reflexivity.
Qed.

Lemma printParams_copied o : copied_fields o (printParams o).
Proof.
  unfold copied_fields, printParams. cbn.
  repeat split.
  - destruct (String.eqb_spec (HeaderTemplate o) ""); cbn; congruence.
  - destruct (String.eqb_spec (FooterTemplate o) ""); cbn; congruence.
Qed.

(** C2 (as amended): [generatePDF] sends one print request.  Its fields
    PrintBackground, Landscape, DisplayHeaderFooter, Scale, the four
    margins and the two templates are copied unchanged from the options.
    The paper size is not copied: it is derived from [Format] (a table of
    five names, zero for any other non-empty name) and comes from [Width]
    and [Height] only when [Format] is empty and both are positive (zero
    otherwise).  [WaitForSelector], [WaitTime] and [Timeout] do not reach
    the request. *)
Theorem generatePDF_request `{External} hp g p o b t :
  generator_at hp g p o ->
  exists params r b',
    Generator.generatePDF (Some g) (mkWorld hp b t)
      = Returns r (mkWorld hp b' (t ++ [chromedp.CmdPrintToPDF params]))
    /\ copied_fields o params
    /\ paper_size_rule o (page.PaperWidth params) (page.PaperHeight params)
    /\ (forall selector d1 d2,
          params = printParams (set_WaitForSelector selector
                                  (set_WaitTime d1 (set_Timeout d2 o)))).
Proof.
  intros Hgen.
  pose proof (generatePDF_run hp g p o b t Hgen) as Hrun.
  destruct (respond b (chromedp.CmdPrintToPDF (printParams o))) as [b' r].
  exists (printParams o). eexists. exists b'. split; [exact Hrun|].
  split; [apply printParams_copied|]. split; [apply paperSize_rule|].
  intros selector d1 d2. reflexivity.
Qed.

Lemma generatePDF_request_witness :
  exists params r b',
    @Generator.generatePDF scripted (Some 1%nat) (scripted_world default_heap [succeeded])
      = Returns r (@mkWorld scripted default_heap b'
                     ([] ++ [chromedp.CmdPrintToPDF params]))
    /\ copied_fields DefaultOptions_value params
    /\ paper_size_rule DefaultOptions_value
         (page.PaperWidth params) (page.PaperHeight params)
    /\ (forall selector d1 d2,
          params = printParams (set_WaitForSelector selector
                                  (set_WaitTime d1 (set_Timeout d2 DefaultOptions_value)))).
Proof.
  apply (@generatePDF_request scripted default_heap 1%nat 0%nat
           DefaultOptions_value [succeeded] []).
  split; reflexivity.
Defined.

(** C2 (as stated) fails: with Format "A4" and a custom size of 5 by 7
    inches, the request carries neither 5 nor 7 (the paper width is that of
    A4), and it is the very request built from the default options, which
    have no custom size: [Width] and [Height] are dropped and [Format] is
    transformed. *)
Lemma generatePDF_drops_custom_size :
  exists r w params,
    @Generator.generatePDF scripted (Some 1%nat)
      (scripted_world [OPDFOptions five_by_seven; OGenerator (Some 0%nat)] [])
      = Returns r w
    /\ trace w = [chromedp.CmdPrintToPDF params]
    /\ page.PaperWidth params <> Width five_by_seven
    /\ page.PaperHeight params <> Height five_by_seven
    /\ params = printParams DefaultOptions_value
    /\ five_by_seven <> DefaultOptions_value.
Proof.
  eexists. eexists. eexists. split; [vm_compute; reflexivity|].
  split; [reflexivity|]. repeat split.
  - intros Heq. apply (f_equal (PrimFloat.ltb 6%float)) in Heq.
    vm_compute in Heq. discriminate.
  - intros Heq. apply (f_equal (PrimFloat.ltb 8%float)) in Heq.
    vm_compute in Heq. discriminate.
  - intros Heq. apply (f_equal (fun o => PrimFloat.ltb 0%float (Width o))) in Heq.
    vm_compute in Heq. discriminate.
Qed.

(** ** The builder methods *)

Section BuilderFacts.
Context `{External}.

Lemma builder_at_distinct hp x p o : builder_at hp x p o -> x <> p.
Proof. intros [Hx Hp] ->. congruence. Qed.

Lemma builder_at_insert hp x p o o' :
  builder_at hp x p o -> builder_at (<[p := OPDFOptions o']> hp) x p o'.
Proof.
  intros Hb. pose proof (builder_at_distinct _ _ _ _ Hb) as Hne.
  destruct Hb as [Hx Hp]. split.
  - rewrite list_lookup_insert_ne by congruence. exact Hx.
  - apply list_lookup_insert_eq. eapply lookup_lt_Some. exact Hp.
Qed.

Lemma assign_run hp x p o set b t :
  builder_at hp x p o ->
  assign (Some x) set (mkWorld hp b t)
  = Returns tt (mkWorld (<[p := OPDFOptions (set o)]> hp) b t).
Proof.
  intros [Hx Hp]. go_run Hx Hp. reflexivity.
Qed.

(** Several assignments in a row amount to one update of the record. *)
Lemma assign_again hp x p o o1 set b t :
  builder_at hp x p o ->
  assign (Some x) set (mkWorld (<[p := OPDFOptions o1]> hp) b t)
  = Returns tt (mkWorld (<[p := OPDFOptions (set o1)]> hp) b t).
Proof.
  intros Hb. rewrite (assign_run _ x p o1) by (eapply builder_at_insert; eauto).
  rewrite list_insert_insert_eq. reflexivity.
Qed.
End BuilderFacts.

Ltac builder_run Hb :=
  unfold invoke, OptionsBuilder.Format, OptionsBuilder.Size, OptionsBuilder.Margins,
    OptionsBuilder.Landscape, OptionsBuilder.Portrait, OptionsBuilder.Scale,
    OptionsBuilder.PrintBackground, OptionsBuilder.HeaderFooter,
    OptionsBuilder.WaitFor, OptionsBuilder.WaitTime, OptionsBuilder.Timeout;
  unfold bind at 1; rewrite (assign_run _ _ _ _ _ _ _ Hb);
  repeat (unfold bind at 1; rewrite (assign_again _ _ _ _ _ _ _ _ Hb));
  unfold ret.

Lemma invoke_run `{External} hp x p o b t c :
  builder_at hp x p o ->
  invoke c (Some x) (mkWorld hp b t)
  = Returns (Some x) (mkWorld (<[p := OPDFOptions (updated c o)]> hp) b t).
Proof.
  intros Hb. destruct c; builder_run Hb; reflexivity.
Qed.

Lemma updated_writes c o f v : In (f, v) (writes c) -> get f (updated c o) = v.
Proof.
  destruct c; cbn; intros Hin;
    repeat match goal with
           | Hin : _ \/ _ |- _ => destruct Hin as [Hin|Hin]
           | Hin : (_, _) = (_, _) |- _ => inversion Hin; subst; clear Hin
           | Hin : False |- _ => destruct Hin
           end; reflexivity.
Qed.

Lemma updated_frame c o f :
  ~ In f (map fst (writes c)) -> get f (updated c o) = get f o.
Proof.
  intros Hnot. destruct c, f; try reflexivity; exfalso; apply Hnot; cbn; tauto.
Qed.

(** C6 (as amended): on a builder over any options record, each of the
    eleven configuration methods returns the builder it was called on and
    changes nothing but the record, in which the fields listed by [writes]
    hold the values listed there and every other field keeps its value.
    The written values are the arguments, except that [Landscape] and
    [Portrait] write [true] and [false], [HeaderFooter] also sets
    [DisplayHeaderFooter] to [true], and [Size] also clears [Format]. *)
Theorem builder_method_effect `{External} hp x p o b t c :
  builder_at hp x p o ->
  exists o',
    invoke c (Some x) (mkWorld hp b t)
      = Returns (Some x) (mkWorld (<[p := OPDFOptions o']> hp) b t)
    /\ builder_at (<[p := OPDFOptions o']> hp) x p o'
    /\ (forall a, a <> p -> <[p := OPDFOptions o']> hp !! a = hp !! a)
    /\ (forall f v, In (f, v) (writes c) -> get f o' = v)
    /\ (forall f, ~ In f (map fst (writes c)) -> get f o' = get f o).
Proof.
  intros Hb. exists (updated c o).
  split; [apply invoke_run; exact Hb|].
  split; [eapply builder_at_insert; exact Hb|].
  split; [intros a Ha; apply list_lookup_insert_ne; congruence|].
  split; [apply updated_writes|apply updated_frame].
Qed.

Lemma builder_method_effect_witness :
  exists o',
    @invoke scripted (CallHeaderFooter "<b>top</b>" "<i>bottom</i>") (Some 1%nat)
      (scripted_world builder_heap [])
      = Returns (Some 1%nat)
          (@mkWorld scripted (<[0%nat := OPDFOptions o']> builder_heap) [] [])
    /\ builder_at (<[0%nat := OPDFOptions o']> builder_heap) 1%nat 0%nat o'
    /\ (forall a, a <> 0%nat ->
        <[0%nat := OPDFOptions o']> builder_heap !! a = builder_heap !! a)
    /\ (forall f v,
          In (f, v) (writes (CallHeaderFooter "<b>top</b>" "<i>bottom</i>")) ->
          get f o' = v)
    /\ (forall f,
          ~ In f (map fst (writes (CallHeaderFooter "<b>top</b>" "<i>bottom</i>"))) ->
          get f o' = get f DefaultOptions_value).
Proof.
  apply (@builder_method_effect scripted builder_heap 1%nat 0%nat
           DefaultOptions_value [] [] (CallHeaderFooter "<b>top</b>" "<i>bottom</i>")).
  split; reflexivity.
Defined.

(** C6 (as stated) fails: [Size(8.5, 11)] on the default options changes
    [Format] from "A4" to the empty string, which is not one of the
    arguments of the call. *)
Lemma Size_also_changes_Format :
  exists w' o',
    @invoke scripted (CallSize 8.5%float 11%float) (Some 1%nat)
      (scripted_world builder_heap []) = Returns (Some 1%nat) w'
    /\ heap w' !! 0%nat = Some (OPDFOptions o')
    /\ get FFormat DefaultOptions_value = VString "A4"
    /\ get FFormat o' = VString ""
    /\ get FFormat o' <> get FFormat DefaultOptions_value
    /\ ~ In (get FFormat o') (arguments (CallSize 8.5%float 11%float)).
Proof.
  eexists. eexists. split; [vm_compute; reflexivity|].
  split; [reflexivity|]. split; [reflexivity|]. split; [reflexivity|].
  split; [discriminate|]. cbn. intros [Hin|[Hin|[]]]; discriminate.
Qed.

(** ** [Size] and the conversion that follows *)

Section BuildFacts.
Context `{External}.

Lemma generator_at_new hp p o :
  hp !! p = Some (OPDFOptions o) ->
  generator_at (hp ++ [OGenerator (Some p)]) (length hp) p o.
Proof.
  intros Hp. split.
  - rewrite list_lookup_middle; reflexivity.
  - apply lookup_app_l_Some. exact Hp.
Qed.

Lemma Build_run hp x p o b t :
  builder_at hp x p o ->
  OptionsBuilder.Build (Some x) (mkWorld hp b t)
  = Returns (Some (length hp)) (mkWorld (hp ++ [OGenerator (Some p)]) b t).
Proof.
  intros [Hx Hp]. unfold OptionsBuilder.Build, NewGenerator, new.
  go_run Hx Hp. reflexivity.
Qed.

Lemma Generate_sends_in_order hp x p o b t htmlContent :
  builder_at hp x p o ->
  sends_in_order (OptionsBuilder.Generate (Some x) htmlContent) (mkWorld hp b t)
                 (script o (dataURL htmlContent)).
Proof.
  intros Hb.
  pose proof (runs_script_sends_in_order _ _ _ _ _
                (FromHTML_runs_script _ _ _ _ b t htmlContent
                   (generator_at_new hp p o (proj2 Hb)))) as Hsend.
  unfold sends_in_order in *. unfold OptionsBuilder.Generate.
  unfold bind at 1. rewrite (Build_run hp x p o b t Hb). exact Hsend.
Qed.
End BuildFacts.

(** C10 (as stated) fails: after [Size(-1, 5)], with no [Format] call, the
    record holds the custom dimensions and an empty [Format], yet the
    conversion's print request carries a paper width and height of zero,
    not -1 and 5. *)
Lemma Size_nonpositive_is_not_used :
  exists r w o' prelude params,
    @bind scripted _ _ WithOptions
      (fun b => @bind scripted _ _ (OptionsBuilder.Size b (-1)%float 5%float)
         (fun b => OptionsBuilder.Generate b "hello"))
      (scripted_world [] [])
    = Returns r w
    /\ heap w !! 0%nat = Some (OPDFOptions o')
    /\ Format o' = "" /\ Width o' = (-1)%float /\ Height o' = 5%float
    /\ trace w = (prelude ++ [chromedp.CmdPrintToPDF params])%list
    /\ page.PaperWidth params = 0%float /\ page.PaperHeight params = 0%float
    /\ page.PaperWidth params <> Width o' /\ page.PaperHeight params <> Height o'.
Proof.
  eexists. eexists. eexists. 
  exists [chromedp.CmdNavigate "data:text/html;charset=utf-8,hello";
          chromedp.CmdWaitReady "body";
          chromedp.CmdSleep 2000000000].
  eexists.
  split; [vm_compute; reflexivity|].
  split; [reflexivity|]. split; [reflexivity|]. split; [reflexivity|].
  split; [reflexivity|]. split; [reflexivity|].
  split; [reflexivity|]. split; [reflexivity|]. split.
  - intros Heq. apply (f_equal (PrimFloat.ltb (-0.5)%float)) in Heq.
    vm_compute in Heq. discriminate.
  - intros Heq. apply (f_equal (PrimFloat.ltb 1%float)) in Heq.
    vm_compute in Heq. discriminate.
Qed.

(** ** Convenience functions *)

Lemma bind_assoc `{External} {A B C} (m : M A) (k : A -> M B) (k' : B -> M C) w :
  bind (bind m k) k' w = bind m (fun a => bind (k a) k') w.
Proof. unfold bind. destruct (m w); reflexivity. Qed.

(** C7: started in any state, the top-level [FromHTML] and [FromURL] have
    the same outcome (result, heap, browser, trace) as
    [NewGenerator(DefaultOptions()).FromHTML] and [.FromURL]; and on any
    builder pointer [Generate] and [GenerateFromURL] have the same outcome
    as [Build().FromHTML] and [Build().FromURL]. *)
Theorem convenience_functions_agree `{External} (input : string) (b : ptr) (w : World) :
  FromHTML input w = spec_FromHTML input w
  /\ FromURL input w = spec_FromURL input w
  /\ OptionsBuilder.Generate b input w = spec_Generate b input w
  /\ OptionsBuilder.GenerateFromURL b input w = spec_GenerateFromURL b input w.
Proof.
  unfold FromHTML, FromURL, spec_FromHTML, spec_FromURL.
  rewrite !bind_assoc. repeat split; reflexivity.
Qed.

(** ** [NewGenerator(nil)] *)

Section NewGeneratorFacts.
Context `{External}.

Lemma NewGenerator_nil_run (w : World) :
  NewGenerator None w
  = Returns (Some (S (length (heap w))))
      (mkWorld (heap w ++ [OPDFOptions DefaultOptions_value;
                           OGenerator (Some (length (heap w)))])
               (browser w) (trace w)).
Proof.
  unfold NewGenerator, DefaultOptions, new, bind. cbn.
  rewrite length_app, Nat.add_comm, <- app_assoc. reflexivity.
Qed.

Lemma generator_at_fresh hp o :
  generator_at (hp ++ [OPDFOptions o; OGenerator (Some (length hp))])
               (S (length hp)) (length hp) o.
Proof.
  split.
  - replace (hp ++ [OPDFOptions o; OGenerator (Some (length hp))])%list
      with ((hp ++ [OPDFOptions o]) ++ [OGenerator (Some (length hp))])%list
      by (rewrite <- app_assoc; reflexivity).
    apply list_lookup_middle. rewrite length_app, Nat.add_comm. reflexivity.
  - apply list_lookup_middle. reflexivity.
Qed.

Lemma conversions_return hp g p o b t input :
  generator_at hp g p o ->
  (exists r w', Generator.FromHTML (Some g) input (mkWorld hp b t) = Returns r w')
  /\ (exists r w', Generator.FromURL (Some g) input (mkWorld hp b t) = Returns r w').
Proof.
  intros Hgen. split.
  - destruct (runs_script_leaves_heap _ _ _ _ _
                (FromHTML_runs_script hp g p o b t input Hgen)) as (r & w' & Hrun & _).
    eauto.
  - destruct (runs_script_leaves_heap _ _ _ _ _
                (FromURL_runs_script hp g p o b t input Hgen)) as (r & w' & Hrun & _).
    eauto.
Qed.
End NewGeneratorFacts.

(** * Further properties of the code *)

(** ** Conversions *)

(** X1: a conversion is the reference run: the browser context is opened
    with the record's [Timeout], the commands of the script are played
    until one fails, the context is cancelled on every path, the heap is
    untouched, and the result is read off the last reply. *)
Theorem conversions_follow_script `{External} hp g p o b t input :
  generator_at hp g p o ->
  runs_script (Generator.FromHTML (Some g) input) (mkWorld hp b t)
              o (dataURL input) "failed to generate PDF: "
  /\ runs_script (Generator.FromURL (Some g) input) (mkWorld hp b t)
                 o input "failed to generate PDF from URL: ".
Proof.
  intros Hgen. split.
  - exact (FromHTML_run hp g p o b t input Hgen).
  - exact (FromURL_run hp g p o b t input Hgen).
Qed.

Lemma conversions_follow_script_witness :
  runs_script (@Generator.FromHTML scripted (Some 1%nat) "hello")
              (scripted_world default_heap [succeeded; navigation_aborted])
              DefaultOptions_value (@dataURL scripted "hello")
              "failed to generate PDF: "
  /\ runs_script (@Generator.FromURL scripted (Some 1%nat) "hello")
                 (scripted_world default_heap [succeeded; navigation_aborted])
                 DefaultOptions_value "hello"
                 "failed to generate PDF from URL: ".
Proof.
  apply (@conversions_follow_script scripted default_heap 1%nat 0%nat
           DefaultOptions_value [succeeded; navigation_aborted] [] "hello").
  split; reflexivity.
Defined.

(** X2: [FromHTML] on a document is [FromURL] on the document's data URL:
    both send the same commands, leave the same state and return the same
    bytes; when they fail they wrap the same error and differ only in the
    prefix. *)
Theorem FromHTML_is_FromURL_of_data_URL `{External} hp g p o b t htmlContent :
  generator_at hp g p o ->
  exists r1 r2 w',
    Generator.FromHTML (Some g) htmlContent (mkWorld hp b t) = Returns r1 w'
    /\ Generator.FromURL (Some g) (dataURL htmlContent) (mkWorld hp b t) = Returns r2 w'
    /\ fst r1 = fst r2
    /\ (snd r1 = None <-> snd r2 = None)
    /\ (forall e1, snd r1 = Some e1 ->
        exists inner,
          e1 = fmt.Errorf "failed to generate PDF: " inner
          /\ snd r2 = Some (fmt.Errorf "failed to generate PDF from URL: " inner)).
Proof.
  intros Hgen.
  pose proof (FromHTML_run hp g p o b t htmlContent Hgen) as H1.
  pose proof (FromURL_run hp g p o b t (dataURL htmlContent) Hgen) as H2.
  unfold dataURL in *.
  destruct (feed _ _ _) as [[b' sent] r].
  eexists. eexists. eexists. split; [exact H1|]. split; [exact H2|].
  unfold outcome. destruct (chromedp.err r) as [e|]; cbn.
  - split; [reflexivity|]. split; [split; discriminate|].
    intros e1 He1. inversion He1; subst. eexists. split; reflexivity.
  - split; [reflexivity|]. split; [tauto|]. discriminate.
Qed.

Lemma FromHTML_is_FromURL_of_data_URL_witness :
  exists r1 r2 w',
    @Generator.FromHTML scripted (Some 1%nat) "hello"
      (scripted_world default_heap [succeeded; succeeded; printing_failed]) = Returns r1 w'
    /\ @Generator.FromURL scripted (Some 1%nat) (@dataURL scripted "hello")
         (scripted_world default_heap [succeeded; succeeded; printing_failed]) = Returns r2 w'
    /\ fst r1 = fst r2
    /\ (snd r1 = None <-> snd r2 = None)
    /\ (forall e1, snd r1 = Some e1 ->
        exists inner,
          e1 = fmt.Errorf "failed to generate PDF: " inner
          /\ snd r2 = Some (fmt.Errorf "failed to generate PDF from URL: " inner)).
Proof.
  apply (@FromHTML_is_FromURL_of_data_URL scripted default_heap 1%nat 0%nat
           DefaultOptions_value [succeeded; succeeded; printing_failed] [] "hello").
  split; reflexivity.
Defined.




(** X4: a generator keeps no state between conversions and caches nothing:
    a second conversion of the same document on the same generator returns
    as well, the heap is still the one before the first, and when both
    succeed the whole script has been sent twice. *)
Theorem generator_is_reusable `{External} hp g p o b t htmlContent :
  generator_at hp g p o ->
  exists r1 w1 r2 w2,
    Generator.FromHTML (Some g) htmlContent (mkWorld hp b t) = Returns r1 w1
    /\ Generator.FromHTML (Some g) htmlContent w1 = Returns r2 w2
    /\ heap w2 = hp
    /\ (snd r1 = None -> snd r2 = None ->
        trace w2 = (t ++ script o (dataURL htmlContent)
                      ++ script o (dataURL htmlContent))%list).
Proof.
  intros Hgen.
  pose proof (FromHTML_run hp g p o b t htmlContent Hgen) as H1.
  fold (dataURL htmlContent) in H1.
  destruct (feed (NewContext (Timeout o) b) _ _) as [[b1 sent1] r1] eqn:Hf1.
  pose proof (FromHTML_run hp g p o (cancel b1) (t ++ sent1) htmlContent Hgen) as H2.
  fold (dataURL htmlContent) in H2.
  destruct (feed (NewContext (Timeout o) (cancel b1)) _ _) as [[b2 sent2] r2] eqn:Hf2.
  eexists. eexists. eexists. eexists.
  split; [exact H1|]. split; [exact H2|]. split; [reflexivity|].
  unfold outcome. intros Hok1 Hok2. cbn [trace].
  destruct (chromedp.err r1) eqn:He1; [discriminate|].
  destruct (chromedp.err r2) eqn:He2; [discriminate|].
  rewrite (feed_success _ _ _ _ _ _ Hf1 He1), (feed_success _ _ _ _ _ _ Hf2 He2).
  rewrite <- app_assoc. reflexivity.
Qed.

Lemma generator_is_reusable_witness :
  exists r1 w1 r2 w2,
    @Generator.FromHTML scripted (Some 1%nat) "hello"
      (scripted_world default_heap []) = Returns r1 w1
    /\ @Generator.FromHTML scripted (Some 1%nat) "hello" w1 = Returns r2 w2
    /\ heap w2 = default_heap
    /\ (snd r1 = None -> snd r2 = None ->
        trace w2 = ([] ++ script DefaultOptions_value (@dataURL scripted "hello")
                       ++ script DefaultOptions_value (@dataURL scripted "hello"))%list).
Proof.
  apply (@generator_is_reusable scripted default_heap 1%nat 0%nat
           DefaultOptions_value [] [] "hello").
  split; reflexivity.
Defined.

(** ** The top-level functions *)

Lemma default_generator_run `{External} (w : World) :
  bind DefaultOptions NewGenerator w
  = Returns (Some (S (length (heap w))))
      (mkWorld (heap w ++ [OPDFOptions DefaultOptions_value;
                           OGenerator (Some (length (heap w)))])
               (browser w) (trace w)).
Proof.
  unfold NewGenerator, DefaultOptions, new, bind, ret. cbn.
  rewrite length_app, Nat.add_comm, <- app_assoc. reflexivity.
Qed.

(** ** Sharing between builders and generators *)

Lemma lookup_insert_new (hp : list object) (p : addr) (v g : object) :
  (p < length hp)%nat ->
  <[p := v]> (hp ++ [g])%list !! length hp = Some g.
Proof.
  intros Hlt. rewrite list_lookup_insert_ne by lia.
  apply list_lookup_middle. reflexivity.
Qed.

(** X6: [Build] does not copy the options: the generator it returns points
    to the builder's own record, so a configuration method called on the
    builder after [Build] changes what the generator's next conversion
    sends. *)
Theorem Build_shares_the_record `{External} hp x p o b t c input :
  builder_at hp x p o ->
  exists g w1 w2,
    OptionsBuilder.Build (Some x) (mkWorld hp b t) = Returns (Some g) w1
    /\ generator_at (heap w1) g p o
    /\ invoke c (Some x) w1 = Returns (Some x) w2
    /\ generator_at (heap w2) g p (updated c o)
    /\ sends_in_order (Generator.FromHTML (Some g) input) w2
         (script (updated c o) (dataURL input)).
Proof.
  intros Hb.
  assert (Hb1 : builder_at (hp ++ [OGenerator (Some p)])%list x p o).
  { destruct Hb as [Hx Hp]. split; apply lookup_app_l_Some; assumption. }
  assert (Hg2 : generator_at
                  (<[p := OPDFOptions (updated c o)]> (hp ++ [OGenerator (Some p)])%list)
                  (length hp) p (updated c o)).
  { split.
    - apply lookup_insert_new. eapply lookup_lt_Some. exact (proj2 Hb).
    - exact (proj2 (builder_at_insert _ _ _ _ (updated c o) Hb1)). }
  exists (length hp). eexists. eexists.
  split; [exact (Build_run hp x p o b t Hb)|].
  split; [exact (generator_at_new hp p o (proj2 Hb))|].
  split; [exact (invoke_run _ x p o b t c Hb1)|].
  split; [exact Hg2|].
  exact (runs_script_sends_in_order _ _ _ _ _ (FromHTML_run _ _ _ _ b t input Hg2)).
Qed.

Lemma Build_shares_the_record_witness :
  exists g w1 w2,
    @OptionsBuilder.Build scripted (Some 1%nat) (scripted_world builder_heap [])
      = Returns (Some g) w1
    /\ generator_at (heap w1) g 0%nat DefaultOptions_value
    /\ invoke (CallFormat "A3") (Some 1%nat) w1 = Returns (Some 1%nat) w2
    /\ generator_at (heap w2) g 0%nat (updated (CallFormat "A3") DefaultOptions_value)
    /\ sends_in_order (Generator.FromHTML (Some g) "hello") w2
         (script (updated (CallFormat "A3") DefaultOptions_value)
                 (@dataURL scripted "hello")).
Proof.
  apply (@Build_shares_the_record scripted builder_heap 1%nat 0%nat
           DefaultOptions_value [] [] (CallFormat "A3") "hello").
  split; reflexivity.
Defined.

Lemma builder_at_fresh hp o :
  builder_at (hp ++ [OPDFOptions o; OOptionsBuilder (Some (length hp))])%list
             (S (length hp)) (length hp) o.
Proof.
  split.
  - replace (hp ++ [OPDFOptions o; OOptionsBuilder (Some (length hp))])%list
      with ((hp ++ [OPDFOptions o]) ++ [OOptionsBuilder (Some (length hp))])%list
      by (rewrite <- app_assoc; reflexivity).
    apply list_lookup_middle. rewrite length_app, Nat.add_comm. reflexivity.
  - apply list_lookup_middle. reflexivity.
Qed.

Lemma WithOptions_run `{External} (w : World) :
  WithOptions w
  = Returns (Some (S (length (heap w))))
      (mkWorld (heap w ++ [OPDFOptions DefaultOptions_value;
                           OOptionsBuilder (Some (length (heap w)))])
               (browser w) (trace w)).
Proof.
  unfold WithOptions, DefaultOptions, new, bind, ret. cbn.
  rewrite length_app, Nat.add_comm, <- app_assoc. reflexivity.
Qed.

Lemma builder_at_app hp x p o more :
  builder_at hp x p o -> builder_at (hp ++ more)%list x p o.
Proof.
  intros [Hx Hp]. split; apply lookup_app_l_Some; assumption.
Qed.

(** X7: every [WithOptions()] allocates its own default record: two
    builders made one after the other sit on different records, and a
    configuration method called on the first leaves the record of the
    second at the defaults. *)
Theorem builders_have_their_own_records `{External} (w : World) (c : Call) :
  exists b1 p1 w1 b2 p2 w2 w3,
    WithOptions w = Returns (Some b1) w1
    /\ WithOptions w1 = Returns (Some b2) w2
    /\ invoke c (Some b1) w2 = Returns (Some b1) w3
    /\ p1 <> p2
    /\ builder_at (heap w3) b1 p1 (updated c DefaultOptions_value)
    /\ builder_at (heap w3) b2 p2 DefaultOptions_value.
Proof.
  set (h1 := (heap w ++ [OPDFOptions DefaultOptions_value;
                         OOptionsBuilder (Some (length (heap w)))])%list).
  set (h2 := (h1 ++ [OPDFOptions DefaultOptions_value;
                     OOptionsBuilder (Some (length h1))])%list).
  assert (Hb1 : builder_at h2 (S (length (heap w))) (length (heap w))
                           DefaultOptions_value)
    by (apply builder_at_app, builder_at_fresh).
  assert (Hb2 : builder_at h2 (S (length h1)) (length h1) DefaultOptions_value)
    by apply builder_at_fresh.
  assert (Hlt : (length (heap w) < length h1)%nat)
    by (unfold h1; rewrite length_app; cbn; lia).
  exists (S (length (heap w))), (length (heap w)). eexists.
  exists (S (length h1)), (length h1). eexists. eexists.
  split; [apply WithOptions_run|].
  split; [apply WithOptions_run|].
  split; [exact (invoke_run h2 _ _ _ (browser w) (trace w) c Hb1)|].
  split; [lia|].
  split; [exact (builder_at_insert _ _ _ _ _ Hb1)|].
  cbn [heap]. destruct Hb2 as [Hx2 Hp2].
  split; rewrite list_lookup_insert_ne by lia; assumption.
Qed.

(** X8: a zero-value builder (its [options] pointer is nil) cannot be
    configured, every configuration method panics on it, but it can build:
    [Build] and [Generate] fall back to a fresh default record, and the
    builder's own pointer stays nil. *)
Theorem zero_value_builder `{External} hp x b t :
  hp !! x = Some (OOptionsBuilder None) ->
  (forall c, invoke c (Some x) (mkWorld hp b t) = Panics)
  /\ (exists g p w',
         OptionsBuilder.Build (Some x) (mkWorld hp b t) = Returns (Some g) w'
         /\ generator_at (heap w') g p DefaultOptions_value
         /\ heap w' !! x = Some (OOptionsBuilder None))
  /\ (forall input,
         sends_in_order (OptionsBuilder.Generate (Some x) input) (mkWorld hp b t)
                        (script DefaultOptions_value (dataURL input))).
Proof.
  intros Hx.
  assert (Hbuild : OptionsBuilder.Build (Some x) (mkWorld hp b t)
                   = Returns (Some (S (length hp)))
                       (mkWorld (hp ++ [OPDFOptions DefaultOptions_value;
                                        OGenerator (Some (length hp))]) b t)).
  { unfold OptionsBuilder.Build. go_run_with ltac:(rewrite ?Hx).
    exact (NewGenerator_nil_run (mkWorld hp b t)). }
  split; [|split].
  - intros c. destruct c;
      unfold invoke, OptionsBuilder.Format, OptionsBuilder.Size,
        OptionsBuilder.Margins, OptionsBuilder.Landscape, OptionsBuilder.Portrait,
        OptionsBuilder.Scale, OptionsBuilder.PrintBackground,
        OptionsBuilder.HeaderFooter, OptionsBuilder.WaitFor,
        OptionsBuilder.WaitTime, OptionsBuilder.Timeout;
      go_run_with ltac:(rewrite ?Hx); reflexivity.
  - exists (S (length hp)), (length hp). eexists.
    split; [exact Hbuild|]. split; [apply generator_at_fresh|].
    cbn [heap]. apply lookup_app_l_Some. exact Hx.
  - intros input. unfold sends_in_order, OptionsBuilder.Generate.
    unfold bind at 1. rewrite Hbuild.
    exact (runs_script_sends_in_order _ _ _ _ _
             (FromHTML_run _ _ _ _ b t input
                (generator_at_fresh hp DefaultOptions_value))).
Qed.

Lemma zero_value_builder_witness :
  (forall c, @invoke scripted c (Some 0%nat)
               (scripted_world [OOptionsBuilder None] []) = Panics)
  /\ (exists g p w',
         @OptionsBuilder.Build scripted (Some 0%nat)
           (scripted_world [OOptionsBuilder None] []) = Returns (Some g) w'
         /\ generator_at (heap w') g p DefaultOptions_value
         /\ heap w' !! 0%nat = Some (OOptionsBuilder None))
  /\ (forall input,
         sends_in_order (@OptionsBuilder.Generate scripted (Some 0%nat) input)
                        (scripted_world [OOptionsBuilder None] [])
                        (script DefaultOptions_value (@dataURL scripted input))).
Proof.
  apply (@zero_value_builder scripted [OOptionsBuilder None] 0%nat [] []).
  reflexivity.
Defined.

(** X9: the conversions dereference the options before anything is sent:
    on a zero-value generator (nil [options]) [FromHTML] and [FromURL]
    panic, as do all methods called through a nil builder or generator
    pointer. *)
Theorem nil_options_or_receiver_panics `{External} hp g b t input :
  hp !! g = Some (OGenerator None) ->
  Generator.FromHTML (Some g) input (mkWorld hp b t) = Panics
  /\ Generator.FromURL (Some g) input (mkWorld hp b t) = Panics
  /\ Generator.FromHTML None input (mkWorld hp b t) = Panics
  /\ Generator.FromURL None input (mkWorld hp b t) = Panics
  /\ OptionsBuilder.Build None (mkWorld hp b t) = Panics
  /\ OptionsBuilder.Generate None input (mkWorld hp b t) = Panics
  /\ (forall c, invoke c None (mkWorld hp b t) = Panics).
Proof.
  intros Hg.
  repeat match goal with |- _ /\ _ => split end;
    try (unfold OptionsBuilder.Generate, OptionsBuilder.Build;
         go_run_with ltac:(rewrite ?Hg); reflexivity).
  intros c. destruct c; reflexivity.
Qed.

Lemma nil_options_or_receiver_panics_witness :
  @Generator.FromHTML scripted (Some 0%nat) "hello"
    (scripted_world [OGenerator None] []) = Panics
  /\ @Generator.FromURL scripted (Some 0%nat) "hello"
       (scripted_world [OGenerator None] []) = Panics
  /\ @Generator.FromHTML scripted None "hello"
       (scripted_world [OGenerator None] []) = Panics
  /\ @Generator.FromURL scripted None "hello"
       (scripted_world [OGenerator None] []) = Panics
  /\ @OptionsBuilder.Build scripted None (scripted_world [OGenerator None] []) = Panics
  /\ @OptionsBuilder.Generate scripted None "hello"
       (scripted_world [OGenerator None] []) = Panics
  /\ (forall c, @invoke scripted c None (scripted_world [OGenerator None] []) = Panics).
Proof.
  apply (@nil_options_or_receiver_panics scripted [OGenerator None] 0%nat [] [] "hello").
  reflexivity.
Defined.

(** X10: [Generate] and [GenerateFromURL] add one generator object to the
    heap and change nothing else, whether the conversion succeeds or not:
    the builder still sits on the same, unchanged record and can be
    configured and used again. *)
Theorem Generate_keeps_the_builder `{External} hp x p o b t input :
  builder_at hp x p o ->
  (exists r w',
      OptionsBuilder.Generate (Some x) input (mkWorld hp b t) = Returns r w'
      /\ heap w' = (hp ++ [OGenerator (Some p)])%list
      /\ builder_at (heap w') x p o)
  /\ (exists r w',
         OptionsBuilder.GenerateFromURL (Some x) input (mkWorld hp b t) = Returns r w'
         /\ heap w' = (hp ++ [OGenerator (Some p)])%list
         /\ builder_at (heap w') x p o).
Proof.
  intros Hb.
  pose proof (generator_at_new hp p o (proj2 Hb)) as Hgen.
  split.
  - destruct (runs_script_leaves_heap _ _ _ _ _
                (FromHTML_run _ _ _ _ b t input Hgen)) as (r & w' & Hrun & Hheap).
    exists r, w'. unfold OptionsBuilder.Generate. unfold bind at 1.
    rewrite (Build_run hp x p o b t Hb). split; [exact Hrun|].
    cbn in Hheap. rewrite Hheap. split; [reflexivity|].
    apply builder_at_app. exact Hb.
  - destruct (runs_script_leaves_heap _ _ _ _ _
                (FromURL_run _ _ _ _ b t input Hgen)) as (r & w' & Hrun & Hheap).
    exists r, w'. unfold OptionsBuilder.GenerateFromURL. unfold bind at 1.
    rewrite (Build_run hp x p o b t Hb). split; [exact Hrun|].
    cbn in Hheap. rewrite Hheap. split; [reflexivity|].
    apply builder_at_app. exact Hb.
Qed.

Lemma Generate_keeps_the_builder_witness :
  (exists r w',
      @OptionsBuilder.Generate scripted (Some 1%nat) "hello"
        (scripted_world builder_heap [navigation_aborted]) = Returns r w'
      /\ heap w' = (builder_heap ++ [OGenerator (Some 0%nat)])%list
      /\ builder_at (heap w') 1%nat 0%nat DefaultOptions_value)
  /\ (exists r w',
         @OptionsBuilder.GenerateFromURL scripted (Some 1%nat) "hello"
           (scripted_world builder_heap [navigation_aborted]) = Returns r w'
         /\ heap w' = (builder_heap ++ [OGenerator (Some 0%nat)])%list
         /\ builder_at (heap w') 1%nat 0%nat DefaultOptions_value).
Proof.
  apply (@Generate_keeps_the_builder scripted builder_heap 1%nat 0%nat
           DefaultOptions_value [navigation_aborted] [] "hello").
  split; reflexivity.
Defined.

(** ** The wait step *)

Lemma waitCommands_cases o :
  (WaitForSelector o <> "" -> 0 < WaitTime o ->
   waitCommands o = [chromedp.CmdWaitVisible (WaitForSelector o);
                     chromedp.CmdSleep (WaitTime o)])
  /\ (WaitForSelector o <> "" -> WaitTime o <= 0 ->
      waitCommands o = [chromedp.CmdWaitVisible (WaitForSelector o)])
  /\ (WaitForSelector o = "" -> 0 < WaitTime o ->
      waitCommands o = [chromedp.CmdSleep (WaitTime o)])
  /\ (WaitForSelector o = "" -> WaitTime o <= 0 ->
      waitCommands o = [chromedp.CmdSleep (500 * time.Millisecond)]).
Proof.
  unfold waitCommands.
  repeat match goal with |- _ /\ _ => split end; intros Hsel Hwt.
  - apply String.eqb_neq in Hsel. apply Z.ltb_lt in Hwt. rewrite Hsel, Hwt. reflexivity.
  - apply String.eqb_neq in Hsel. apply Z.ltb_ge in Hwt. rewrite Hsel, Hwt. reflexivity.
  - apply String.eqb_eq in Hsel. apply Z.ltb_lt in Hwt. rewrite Hsel, Hwt. reflexivity.
  - apply String.eqb_eq in Hsel. apply Z.ltb_ge in Hwt. rewrite Hsel, Hwt. reflexivity.
Qed.

(** X11: [waitForConditions] only reads the options and returns an action
    that always waits for something: for the selector (if one is set) and
    then for [WaitTime] (if positive), in that order, stopping if the
    selector wait fails; with no selector and a zero or negative [WaitTime]
    it sleeps the default 500ms instead. *)
Theorem waitForConditions_always_waits `{External} {V : Type} hp g p o b t :
  generator_at hp g p o ->
  exists a : Action.Action V,
    Generator.waitForConditions (Some g) (mkWorld hp b t) = Returns a (mkWorld hp b t)
    /\ (forall (v : V) hp1 b1 t1,
          a v (mkWorld hp1 b1 t1) =
          let '(b', sent, r) := feed b1 (waitCommands o) noReply in
          Returns (v, chromedp.err r) (mkWorld hp1 b' (t1 ++ sent)))
    /\ (WaitForSelector o <> "" -> 0 < WaitTime o ->
        waitCommands o = [chromedp.CmdWaitVisible (WaitForSelector o);
                          chromedp.CmdSleep (WaitTime o)])
    /\ (WaitForSelector o <> "" -> WaitTime o <= 0 ->
        waitCommands o = [chromedp.CmdWaitVisible (WaitForSelector o)])
    /\ (WaitForSelector o = "" -> 0 < WaitTime o ->
        waitCommands o = [chromedp.CmdSleep (WaitTime o)])
    /\ (WaitForSelector o = "" -> WaitTime o <= 0 ->
        waitCommands o = [chromedp.CmdSleep (500 * time.Millisecond)]).
Proof.
  intros [Hg Hp].
  assert (Hrun : exists a : Action.Action V,
             Generator.waitForConditions (Some g) (mkWorld hp b t)
             = Returns a (mkWorld hp b t)
             /\ forall (v : V) hp1 b1 t1,
                 a v (mkWorld hp1 b1 t1) =
                 let '(b', sent, r) := feed b1 (waitCommands o) noReply in
                 Returns (v, chromedp.err r) (mkWorld hp1 b' (t1 ++ sent))).
  { unfold Generator.waitForConditions, waitCommands.
    destruct (String.eqb (WaitForSelector o) "") eqn:Hsel;
      destruct (0 <? WaitTime o) eqn:Hwt;
      go_run_with ltac:(rewrite ?Hg, ?Hp, ?Hsel, ?Hwt);
      (eexists; split; [reflexivity|]);
      intros v hp1 b1 t1; go_run_with ltac:(idtac);
      rewrite <- ?app_assoc; reflexivity. }
  destruct Hrun as (a & Ha & Hact). exists a.
  split; [exact Ha|]. split; [exact Hact|]. apply waitCommands_cases.
Qed.

Lemma waitForConditions_always_waits_witness :
  exists a : Action.Action unit,
    @Generator.waitForConditions scripted unit (Some 1%nat)
      (scripted_world default_heap []) = Returns a (scripted_world default_heap [])
    /\ (forall (v : unit) hp1 b1 t1,
          a v (@mkWorld scripted hp1 b1 t1) =
          let '(b', sent, r) :=
            @feed scripted b1 (waitCommands DefaultOptions_value) noReply in
          Returns (v, chromedp.err r) (@mkWorld scripted hp1 b' (t1 ++ sent)))
    /\ (WaitForSelector DefaultOptions_value <> "" -> 0 < WaitTime DefaultOptions_value ->
        waitCommands DefaultOptions_value
        = [chromedp.CmdWaitVisible (WaitForSelector DefaultOptions_value);
           chromedp.CmdSleep (WaitTime DefaultOptions_value)])
    /\ (WaitForSelector DefaultOptions_value <> "" -> WaitTime DefaultOptions_value <= 0 ->
        waitCommands DefaultOptions_value
        = [chromedp.CmdWaitVisible (WaitForSelector DefaultOptions_value)])
    /\ (WaitForSelector DefaultOptions_value = "" -> 0 < WaitTime DefaultOptions_value ->
        waitCommands DefaultOptions_value
        = [chromedp.CmdSleep (WaitTime DefaultOptions_value)])
    /\ (WaitForSelector DefaultOptions_value = "" -> WaitTime DefaultOptions_value <= 0 ->
        waitCommands DefaultOptions_value
        = [chromedp.CmdSleep (500 * time.Millisecond)]).
Proof.
  apply (@waitForConditions_always_waits scripted unit default_heap 1%nat 0%nat
           DefaultOptions_value [] []).
  split; reflexivity.
Defined.

(** ** How builder calls compose *)

Lemma invoke_twice `{External} hp x p o b t c1 c2 :
  builder_at hp x p o ->
  bind (invoke c1 (Some x)) (fun b' => invoke c2 b') (mkWorld hp b t)
  = Returns (Some x)
      (mkWorld (<[p := OPDFOptions (updated c2 (updated c1 o))]> hp) b t).
Proof.
  intros Hb. unfold bind. rewrite (invoke_run hp x p o b t c1 Hb).
  rewrite (invoke_run _ x p (updated c1 o) b t c2)
    by (eapply builder_at_insert; exact Hb).
  rewrite list_insert_insert_eq. reflexivity.
Qed.

Ltac common_field Hdisj :=
  let use f := solve [apply (Hdisj f); cbn; tauto] in
  first [ use FFormat | use FWidth | use FHeight
        | use FMarginTop | use FMarginBottom | use FMarginLeft | use FMarginRight
        | use FLandscape | use FPrintBackground | use FScale
        | use FDisplayHeaderFooter | use FHeaderTemplate | use FFooterTemplate
        | use FWaitForSelector | use FWaitTime | use FTimeout ].

Lemma updated_commute c1 c2 o :
  (forall f, In f (fields c1) -> ~ In f (fields c2)) ->
  updated c2 (updated c1 o) = updated c1 (updated c2 o).
Proof.
  intros Hdisj.
  destruct c1, c2; try reflexivity; exfalso; common_field Hdisj.
Qed.

(** X12: two configuration calls that write no common field commute: in
    either order they leave the same record, heap, browser and trace. *)
Theorem disjoint_calls_commute `{External} hp x p o b t c1 c2 :
  builder_at hp x p o ->
  (forall f, In f (fields c1) -> ~ In f (fields c2)) ->
  bind (invoke c1 (Some x)) (fun b' => invoke c2 b') (mkWorld hp b t)
  = bind (invoke c2 (Some x)) (fun b' => invoke c1 b') (mkWorld hp b t).
Proof.
  intros Hb Hdisj.
  rewrite (invoke_twice hp x p o b t c1 c2 Hb), (invoke_twice hp x p o b t c2 c1 Hb).
  rewrite (updated_commute c1 c2 o Hdisj). reflexivity.
Qed.

Lemma disjoint_calls_commute_witness :
  @bind scripted _ _ (invoke (CallMargins 0.5%float 0.5%float 0.5%float 0.5%float) (Some 1%nat))
        (fun b' => invoke CallLandscape b') (scripted_world builder_heap [])
  = @bind scripted _ _ (invoke CallLandscape (Some 1%nat))
          (fun b' => invoke (CallMargins 0.5%float 0.5%float 0.5%float 0.5%float) b')
          (scripted_world builder_heap []).
Proof.
  apply (@disjoint_calls_commute scripted builder_heap 1%nat 0%nat
           DefaultOptions_value [] [] (CallMargins 0.5%float 0.5%float 0.5%float 0.5%float) CallLandscape).
  - split; reflexivity.
  - cbn. intros f Hin Hin'. intuition congruence.
Defined.

Ltac missing_field Hsub :=
  let use f :=
    solve [ let Hin := fresh "Hin" in
            pose proof (Hsub f ltac:(cbn; tauto)) as Hin;
            cbn in Hin; intuition discriminate ] in
  first [ use FFormat | use FWidth | use FHeight
        | use FMarginTop | use FMarginBottom | use FMarginLeft | use FMarginRight
        | use FLandscape | use FPrintBackground | use FScale
        | use FDisplayHeaderFooter | use FHeaderTemplate | use FFooterTemplate
        | use FWaitForSelector | use FWaitTime | use FTimeout ].

Lemma updated_overwrite c1 c2 o :
  (forall f, In f (fields c1) -> In f (fields c2)) ->
  updated c2 (updated c1 o) = updated c2 o.
Proof.
  intros Hsub.
  destruct c1, c2; try reflexivity; exfalso; missing_field Hsub.
Qed.

(** X13: a configuration call overrides an earlier one whose fields it
    writes again: when every field written by the first call is also
    written by the second, the two calls in a row leave the state that the
    second call alone leaves.  So the last [Format], [Scale] or [Margins]
    wins, [Portrait] undoes [Landscape], and [Size] undoes [Format]. *)
Theorem later_call_overrides `{External} hp x p o b t c1 c2 :
  builder_at hp x p o ->
  (forall f, In f (fields c1) -> In f (fields c2)) ->
  bind (invoke c1 (Some x)) (fun b' => invoke c2 b') (mkWorld hp b t)
  = invoke c2 (Some x) (mkWorld hp b t).
Proof.
  intros Hb Hsub.
  rewrite (invoke_twice hp x p o b t c1 c2 Hb), (invoke_run hp x p o b t c2 Hb).
  rewrite (updated_overwrite c1 c2 o Hsub). reflexivity.
Qed.

Lemma later_call_overrides_witness :
  @bind scripted _ _ (invoke (CallFormat "Legal") (Some 1%nat))
        (fun b' => invoke (CallSize 5%float 7%float) b') (scripted_world builder_heap [])
  = @invoke scripted (CallSize 5%float 7%float) (Some 1%nat) (scripted_world builder_heap []).
Proof.
  apply (@later_call_overrides scripted builder_heap 1%nat 0%nat
           DefaultOptions_value [] [] (CallFormat "Legal") (CallSize 5%float 7%float)).
  - split; reflexivity.
  - cbn. intros f Hin. intuition congruence.
Defined.

(** ** From the builder to the print request *)

Lemma Generate_request `{External} hp x p o b t input :
  builder_at hp x p o ->
  sends_in_order (OptionsBuilder.Generate (Some x) input) (mkWorld hp b t)
    (([chromedp.CmdNavigate (dataURL input); chromedp.CmdWaitReady "body"]
        ++ waitCommands o) ++ [chromedp.CmdPrintToPDF (printParams o)])
  /\ existsb isPrint
       ([chromedp.CmdNavigate (dataURL input); chromedp.CmdWaitReady "body"]
          ++ waitCommands o) = false.
Proof.
  intros Hb. split.
  - rewrite <- app_assoc. exact (Generate_sends_in_order hp x p o b t input Hb).
  - cbn. apply waitCommands_not_print.
Qed.

(** X14: a [Format] call with a non-empty name after [Size] wins: the
    record keeps the custom width and height, but the print request, and
    with it the whole command sequence of the next conversion, is the one
    obtained with the [Format] call alone. *)
Theorem Format_after_Size_wins `{External} hp x p o b t width height format :
  builder_at hp x p o ->
  format <> "" ->
  exists o2,
    bind (OptionsBuilder.Size (Some x) width height)
         (fun b' => OptionsBuilder.Format b' format) (mkWorld hp b t)
    = Returns (Some x) (mkWorld (<[p := OPDFOptions o2]> hp) b t)
    /\ Width o2 = width /\ Height o2 = height /\ Format o2 = format
    /\ printParams o2 = printParams (set_Format format o)
    /\ forall input b1 t1,
         sends_in_order (OptionsBuilder.Generate (Some x) input)
                        (mkWorld (<[p := OPDFOptions o2]> hp) b1 t1)
                        (script (set_Format format o) (dataURL input)).
Proof.
  intros Hb Hne.
  exists (updated (CallFormat format) (updated (CallSize width height) o)).
  assert (Hparams :
            printParams (updated (CallFormat format) (updated (CallSize width height) o))
            = printParams (set_Format format o)).
  { apply String.eqb_neq in Hne.
    unfold printParams, paperSize. cbn. rewrite Hne. reflexivity. }
  split; [exact (invoke_twice hp x p o b t (CallSize width height) (CallFormat format) Hb)|].
  split; [reflexivity|]. split; [reflexivity|]. split; [reflexivity|].
  split; [exact Hparams|].
  intros input b1 t1.
  replace (script (set_Format format o) (dataURL input))
    with (script (updated (CallFormat format) (updated (CallSize width height) o))
                 (dataURL input))
    by (unfold script; rewrite Hparams; reflexivity).
  apply (Generate_sends_in_order _ x p). eapply builder_at_insert. exact Hb.
Qed.

Lemma Format_after_Size_wins_witness :
  exists o2,
    @bind scripted _ _ (OptionsBuilder.Size (Some 1%nat) 8.5%float 11%float)
          (fun b' => OptionsBuilder.Format b' "Tabloid")
          (scripted_world builder_heap [])
    = Returns (Some 1%nat)
        (@mkWorld scripted (<[0%nat := OPDFOptions o2]> builder_heap) [] [])
    /\ Width o2 = 8.5%float /\ Height o2 = 11%float /\ Format o2 = "Tabloid"
    /\ printParams o2 = printParams (set_Format "Tabloid" DefaultOptions_value)
    /\ forall input b1 t1,
         sends_in_order (@OptionsBuilder.Generate scripted (Some 1%nat) input)
                        (@mkWorld scripted (<[0%nat := OPDFOptions o2]> builder_heap) b1 t1)
                        (script (set_Format "Tabloid" DefaultOptions_value)
                                (@dataURL scripted input)).
Proof.
  apply (@Format_after_Size_wins scripted builder_heap 1%nat 0%nat
           DefaultOptions_value [] [] 8.5%float 11%float "Tabloid").
  - split; reflexivity.
  - discriminate.
Defined.

(** X15: the builder validates nothing: whatever [Scale], [Margins],
    [PrintBackground] and [HeaderFooter] are given (a scale outside 0.1 to
    2.0, negative margins, empty templates), the print request of the next
    conversion carries exactly these values, and [HeaderFooter] always
    switches the display of header and footer on. *)
Theorem builder_values_reach_the_request `{External} hp x p o b t c input :
  builder_at hp x p o ->
  exists o' prelude params,
    invoke c (Some x) (mkWorld hp b t)
    = Returns (Some x) (mkWorld (<[p := OPDFOptions o']> hp) b t)
    /\ sends_in_order (OptionsBuilder.Generate (Some x) input)
         (mkWorld (<[p := OPDFOptions o']> hp) b t)
         (prelude ++ [chromedp.CmdPrintToPDF params])
    /\ existsb isPrint prelude = false
    /\ match c with
       | CallScale scale => page.Scale params = scale
       | CallMargins top bottom l r =>
           page.MarginTop params = top /\ page.MarginBottom params = bottom
           /\ page.MarginLeft params = l /\ page.MarginRight params = r
       | CallPrintBackground enable => page.PrintBackground params = enable
       | CallHeaderFooter header footer =>
           page.DisplayHeaderFooter params = true
           /\ page.HeaderTemplate params = header
           /\ page.FooterTemplate params = footer
       | _ => True
       end.
Proof.
  intros Hb.
  pose proof (builder_at_insert hp x p o (updated c o) Hb) as Hb'.
  destruct (Generate_request _ x p (updated c o) b t input Hb') as [Hsend Hpre].
  exists (updated c o). eexists. exists (printParams (updated c o)).
  split; [exact (invoke_run hp x p o b t c Hb)|].
  split; [exact Hsend|]. split; [exact Hpre|].
  pose proof (printParams_copied (updated c o)) as Hcopy.
  unfold copied_fields in Hcopy.
  destruct c; cbn in Hcopy |- *; intuition.
Qed.

Lemma builder_values_reach_the_request_witness :
  exists o' prelude params,
    @invoke scripted (CallScale 3.5%float) (Some 1%nat) (scripted_world builder_heap [])
    = Returns (Some 1%nat)
        (@mkWorld scripted (<[0%nat := OPDFOptions o']> builder_heap) [] [])
    /\ sends_in_order (@OptionsBuilder.Generate scripted (Some 1%nat) "hello")
         (@mkWorld scripted (<[0%nat := OPDFOptions o']> builder_heap) [] [])
         (prelude ++ [chromedp.CmdPrintToPDF params])
    /\ existsb isPrint prelude = false
    /\ page.Scale params = 3.5%float.
Proof.
  apply (@builder_values_reach_the_request scripted builder_heap 1%nat 0%nat
           DefaultOptions_value [] [] (CallScale 3.5%float) "hello").
  split; reflexivity.
Defined.



(** ** No print without navigation and waits *)

Lemma script_has_print o target : existsb isPrint (script o target) = true.
Proof.
  unfold script. rewrite !existsb_app, waitCommands_not_print. reflexivity.
Qed.

Lemma script_prefix_with_print o target sent rest :
  script o target = (sent ++ rest)%list ->
  existsb isPrint sent = true -> sent = script o target.
Proof.
  intros Hs Hprint. destruct rest as [|x rest].
  - rewrite app_nil_r in Hs. symmetry. exact Hs.
  - exfalso. unfold script in Hs. rewrite app_assoc in Hs. symmetry in Hs.
    apply split_before_last in Hs. destruct Hs as [l4 Hl4].
    assert (Hnone : existsb isPrint sent = false).
    { apply (existsb_prefix isPrint sent l4). rewrite <- Hl4.
      rewrite existsb_app, waitCommands_not_print. reflexivity. }
    congruence.
Qed.

(** * The run of a conversion, command by command *)

Section RunFacts.
Context `{External}.

Lemma feed_run cs : forall b lst b' sent r,
  cs <> [] ->
  feed b cs lst = (b', sent, r) ->
  exists pre c rest,
    sent = (pre ++ [c])%list
    /\ cs = (pre ++ [c] ++ rest)%list
    /\ all_succeed b pre
    /\ respond (after b pre) c = (b', r)
    /\ (chromedp.err r = None -> rest = []).
Proof.
  induction cs as [|c cs IH]; intros b lst b' sent r Hne Hfeed; [congruence|].
  cbn in Hfeed. destruct (respond b c) as [b1 r1] eqn:Hresp.
  destruct (chromedp.err r1) as [e|] eqn:He.
  - inversion Hfeed; subst. exists [], c, cs. cbn.
    repeat split; [exact Hresp|congruence].
  - destruct (feed b1 cs r1) as [[b2 sent2] r2] eqn:Hrec.
    inversion Hfeed; subst. destruct cs as [|c' cs'].
    + cbn in Hrec. inversion Hrec; subst. exists [], c, []. cbn.
      repeat split; exact Hresp.
    + destruct (IH _ _ _ _ _ ltac:(discriminate) Hrec)
        as (pre & c0 & rest & -> & Hcs & Hall & Hr & Hlast).
      exists (c :: pre), c0, rest. cbn. rewrite Hresp. cbn.
      split; [reflexivity|]. split; [f_equal; exact Hcs|].
      split; [split; [exact He|exact Hall]|]. split; [exact Hr|exact Hlast].
Qed.

(** What a call that follows [feed] on the script does, read off the run:
    the shape shared by every conversion, whatever it allocates. *)
Lemma script_run call w b0 o target prefix hp' :
  call w =
  (let '(b', sent, r) := feed b0 (script o target) noReply in
   Returns (outcome prefix sent r) (mkWorld hp' (cancel b') (trace w ++ sent))) ->
  exists pre c rest,
    script o target = (pre ++ [c] ++ rest)%list
    /\ all_succeed b0 pre
    /\ (chromedp.err (reply_after b0 pre c) = None -> rest = [])
    /\ call w =
       Returns
         (match chromedp.err (reply_after b0 pre c) with
          | None => (chromedp.data (reply_after b0 pre c), None)
          | Some e =>
              (None,
               Some (fmt.Errorf prefix
                       (if isPrint c
                        then fmt.Errorf "failed to generate PDF: " e
                        else e)))
          end)
         (mkWorld hp' (cancel (fst (respond (after b0 pre) c)))
                  (trace w ++ pre ++ [c])).
Proof.
  intros Hrun.
  destruct (feed b0 (script o target) noReply) as [[b' sent] r] eqn:Hfeed.
  destruct (feed_run _ _ _ _ _ _ (script_nonempty o target) Hfeed)
    as (pre & c & rest & Hsent & Hcs & Hall & Hresp & Hlast).
  exists pre, c, rest. unfold reply_after. rewrite Hresp. cbn [fst snd].
  split; [exact Hcs|]. split; [exact Hall|]. split; [exact Hlast|].
  rewrite Hrun. unfold outcome. subst sent.
  rewrite (script_print_last o target pre c rest Hcs).
  destruct (chromedp.err r); reflexivity.
Qed.

Lemma script_last_is_print o target pre c :
  script o target = (pre ++ [c] ++ [])%list ->
  c = chromedp.CmdPrintToPDF (printParams o).
Proof.
  unfold script. rewrite app_nil_r, app_assoc. intros Hs.
  apply app_inj_tail in Hs. symmetry. exact (proj2 Hs).
Qed.

Lemma script_run_stops call w b0 o target prefix hp' :
  call w =
  (let '(b', sent, r) := feed b0 (script o target) noReply in
   Returns (outcome prefix sent r) (mkWorld hp' (cancel b') (trace w ++ sent))) ->
  stops_at_first_failure call w b0 (script o target).
Proof.
  intros Hrun.
  destruct (script_run _ _ _ _ _ _ _ Hrun) as (pre & c & rest & Hcs & Hall & Hlast & Hcall).
  eexists. eexists. exists pre, c, rest.
  split; [exact Hcall|]. split; [reflexivity|]. split; [exact Hcs|].
  split; [exact Hall|]. split.
  - intros Hrest Hok. apply Hrest, Hlast, Hok.
  - split; [exact Hlast|].
    destruct (chromedp.err (reply_after b0 pre c)); cbn; split; congruence.
Qed.

Lemma script_run_propagates call w b0 o target prefix hp' :
  call w =
  (let '(b', sent, r) := feed b0 (script o target) noReply in
   Returns (outcome prefix sent r) (mkWorld hp' (cancel b') (trace w ++ sent))) ->
  propagates_client_error call w b0 (script o target) prefix.
Proof.
  intros Hrun.
  destruct (script_run _ _ _ _ _ _ _ Hrun) as (pre & c & rest & Hcs & Hall & Hlast & Hcall).
  eexists. eexists. exists pre, c, rest.
  split; [exact Hcall|]. split; [reflexivity|]. split; [exact Hcs|].
  split; [exact Hall|]. split.
  - intros e He. rewrite He. eexists. split; [reflexivity|]. split; [reflexivity|].
    unfold fmt.Errorf. destruct (isPrint c); cbn; auto using chain_self.
  - destruct (chromedp.err (reply_after b0 pre c)); cbn; congruence.
Qed.

Lemma script_run_bytes_xor_error call w b0 o target prefix hp' :
  call w =
  (let '(b', sent, r) := feed b0 (script o target) noReply in
   Returns (outcome prefix sent r) (mkWorld hp' (cancel b') (trace w ++ sent))) ->
  bytes_xor_error call w b0 o (script o target).
Proof.
  intros Hrun.
  destruct (script_run _ _ _ _ _ _ _ Hrun) as (pre & c & rest & Hcs & Hall & Hlast & Hcall).
  eexists. eexists. exists pre, c, rest.
  split; [exact Hcall|]. split; [exact Hcs|]. split; [exact Hall|].
  destruct (chromedp.err (reply_after b0 pre c)) as [e|] eqn:He; cbn.
  - split; [right; repeat split; congruence|].
    split; [intros [Hb _]; congruence|].
    split; [intros [_ Hn]; congruence|intros [Hn _]; congruence].
  - specialize (Hlast eq_refl). subst rest.
    split; [left; repeat split; exact (script_last_is_print o target pre c Hcs)|].
    split; [intros [_ Hn]; congruence|tauto].
Qed.

Lemma script_run_prints_after_success call w b0 o target prefix hp' :
  call w =
  (let '(b', sent, r) := feed b0 (script o target) noReply in
   Returns (outcome prefix sent r) (mkWorld hp' (cancel b') (trace w ++ sent))) ->
  prints_after_success call w b0 (script o target) prefix.
Proof.
  intros Hrun.
  destruct (script_run _ _ _ _ _ _ _ Hrun) as (pre & c & rest & Hcs & Hall & Hlast & Hcall).
  eexists. eexists. exists pre, c, rest.
  split; [exact Hcall|]. split; [reflexivity|]. split; [exact Hcs|].
  split; [exact Hall|].
  pose proof (script_print_last o target pre c rest Hcs) as Hpl.
  rewrite existsb_app in Hpl. cbn in Hpl. rewrite orb_false_r in Hpl.
  assert (Hpre : existsb isPrint pre = false).
  { destruct (existsb isPrint pre) eqn:Hp; [|reflexivity].
    exfalso.
    assert (Hsent : (pre ++ [c])%list = script o target).
    { apply (script_prefix_with_print o target (pre ++ [c]) rest).
      - rewrite <- app_assoc. exact Hcs.
      - rewrite existsb_app, Hp. reflexivity. }
    unfold script in Hsent. rewrite app_assoc in Hsent.
    apply app_inj_tail in Hsent. destruct Hsent as [Hpre _].
    rewrite Hpre, existsb_app, waitCommands_not_print in Hp. discriminate. }
  split; [exact Hpre|]. split.
  - intros Hc. destruct rest as [|x rest]; [reflexivity|]. exfalso.
    assert (Hsent : (pre ++ [c])%list = script o target).
    { apply (script_prefix_with_print o target (pre ++ [c]) (x :: rest)).
      - rewrite <- app_assoc. exact Hcs.
      - rewrite existsb_app. cbn. rewrite Hc. apply orb_true_r. }
    rewrite Hcs in Hsent. apply app_inv_head in Hsent. discriminate.
  - intros Hc.
    destruct (chromedp.err (reply_after b0 pre c)) as [e|] eqn:He.
    + exists e. split; [reflexivity|]. rewrite Hc. reflexivity.
    + exfalso. specialize (Hlast eq_refl). subst rest.
      rewrite (script_last_is_print o target pre c Hcs) in Hc. discriminate.
Qed.
End RunFacts.

(** ** Conversions on a generator *)

(** C1 (as amended): a conversion sends the commands of the fixed sequence
    navigate, wait until ready, configured waits (the selector, then the
    sleep, or the default short sleep), print, to the browser context it
    opened, in that order, each at most once and no other command, and it
    stops at the first command the browser fails: every command before the
    last one sent was answered without error, and the last one sent is the
    print or was answered with an error.  No error is reported exactly when
    the whole sequence was sent and answered without error. *)
Theorem conversion_sends_script_in_order `{External} hp g p o b t input :
  generator_at hp g p o ->
  stops_at_first_failure (Generator.FromHTML (Some g) input) (mkWorld hp b t)
                         (context_of (mkWorld hp b t) o) (script o (dataURL input))
  /\ stops_at_first_failure (Generator.FromURL (Some g) input) (mkWorld hp b t)
                            (context_of (mkWorld hp b t) o) (script o input)
  /\ (forall target,
        script o target
        = (chromedp.CmdNavigate target :: chromedp.CmdWaitReady "body"
             :: waitCommands o ++ [chromedp.CmdPrintToPDF (printParams o)])%list)
  /\ (WaitForSelector o <> "" -> 0 < WaitTime o ->
      waitCommands o = [chromedp.CmdWaitVisible (WaitForSelector o);
                        chromedp.CmdSleep (WaitTime o)])
  /\ (WaitForSelector o <> "" -> WaitTime o <= 0 ->
      waitCommands o = [chromedp.CmdWaitVisible (WaitForSelector o)])
  /\ (WaitForSelector o = "" -> 0 < WaitTime o ->
      waitCommands o = [chromedp.CmdSleep (WaitTime o)])
  /\ (WaitForSelector o = "" -> WaitTime o <= 0 ->
      waitCommands o = [chromedp.CmdSleep (500 * time.Millisecond)]).
Proof.
  intros Hgen.
  split; [exact (script_run_stops _ _ _ _ _ _ _ (FromHTML_run hp g p o b t input Hgen))|].
  split; [exact (script_run_stops _ _ _ _ _ _ _ (FromURL_run hp g p o b t input Hgen))|].
  split; [reflexivity|]. apply waitCommands_cases.
Qed.

Lemma conversion_sends_script_in_order_witness :
  stops_at_first_failure (@Generator.FromHTML scripted (Some 1%nat) "hello")
    (scripted_world default_heap [succeeded; navigation_aborted])
    (context_of (scripted_world default_heap [succeeded; navigation_aborted])
                DefaultOptions_value)
    (script DefaultOptions_value (@dataURL scripted "hello"))
  /\ stops_at_first_failure (@Generator.FromURL scripted (Some 1%nat) "hello")
       (scripted_world default_heap [succeeded; navigation_aborted])
       (context_of (scripted_world default_heap [succeeded; navigation_aborted])
                   DefaultOptions_value)
       (script DefaultOptions_value "hello").
Proof.
  pose proof (@conversion_sends_script_in_order scripted default_heap 1%nat 0%nat
                DefaultOptions_value [succeeded; navigation_aborted] [] "hello"
                ltac:(split; reflexivity)) as Hthm.
  split; [exact (proj1 Hthm)|exact (proj1 (proj2 Hthm))].
Defined.

(** C3 (as amended): when the browser client reports an error for a command
    of a conversion, that command is the last one sent (no retry, no
    further command), and the conversion returns a nil slice and the
    client's error wrapped: in the conversion's own message prefix, and in
    the prefix of [generatePDF] as well when the print command is the one
    that failed.  The client's error is kept in the chain reached by
    [Unwrap]; the conversion reports an error in no other case. *)
Theorem conversion_error_wraps_client_error `{External} hp g p o b t input :
  generator_at hp g p o ->
  propagates_client_error (Generator.FromHTML (Some g) input) (mkWorld hp b t)
    (context_of (mkWorld hp b t) o) (script o (dataURL input))
    "failed to generate PDF: "
  /\ propagates_client_error (Generator.FromURL (Some g) input) (mkWorld hp b t)
       (context_of (mkWorld hp b t) o) (script o input)
       "failed to generate PDF from URL: ".
Proof.
  intros Hgen. split.
  - exact (script_run_propagates _ _ _ _ _ _ _ (FromHTML_run hp g p o b t input Hgen)).
  - exact (script_run_propagates _ _ _ _ _ _ _ (FromURL_run hp g p o b t input Hgen)).
Qed.

Lemma conversion_error_wraps_client_error_witness :
  propagates_client_error (@Generator.FromHTML scripted (Some 1%nat) "hello")
    (scripted_world default_heap [succeeded; printing_failed])
    (context_of (scripted_world default_heap [succeeded; printing_failed])
                DefaultOptions_value)
    (script DefaultOptions_value (@dataURL scripted "hello"))
    "failed to generate PDF: "
  /\ propagates_client_error (@Generator.FromURL scripted (Some 1%nat) "hello")
       (scripted_world default_heap [succeeded; printing_failed])
       (context_of (scripted_world default_heap [succeeded; printing_failed])
                   DefaultOptions_value)
       (script DefaultOptions_value "hello")
       "failed to generate PDF from URL: ".
Proof.
  apply (@conversion_error_wraps_client_error scripted default_heap 1%nat 0%nat
           DefaultOptions_value [succeeded; printing_failed] [] "hello").
  split; reflexivity.
Defined.

(** C4 (as amended): a conversion returns one of two outcomes: the slice
    the client handed back for the print command together with no error
    (when every command including the print was answered without error),
    or a nil slice together with an error; never a slice together with an
    error.  The client's slice is forwarded unchecked, so the conversion
    returns nil and no error exactly when the client answers the print
    with a nil slice and no error. *)
Theorem conversion_returns_bytes_or_error `{External} hp g p o b t input :
  generator_at hp g p o ->
  bytes_xor_error (Generator.FromHTML (Some g) input) (mkWorld hp b t)
                  (context_of (mkWorld hp b t) o) o (script o (dataURL input))
  /\ bytes_xor_error (Generator.FromURL (Some g) input) (mkWorld hp b t)
                     (context_of (mkWorld hp b t) o) o (script o input).
Proof.
  intros Hgen. split.
  - exact (script_run_bytes_xor_error _ _ _ _ _ _ _
             (FromHTML_run hp g p o b t input Hgen)).
  - exact (script_run_bytes_xor_error _ _ _ _ _ _ _
             (FromURL_run hp g p o b t input Hgen)).
Qed.

Lemma conversion_returns_bytes_or_error_witness :
  bytes_xor_error (@Generator.FromHTML scripted (Some 1%nat) "report")
    (scripted_world default_heap [succeeded; navigation_aborted])
    (context_of (scripted_world default_heap [succeeded; navigation_aborted])
                DefaultOptions_value)
    DefaultOptions_value (script DefaultOptions_value (@dataURL scripted "report"))
  /\ bytes_xor_error (@Generator.FromURL scripted (Some 1%nat) "report")
       (scripted_world default_heap [succeeded; navigation_aborted])
       (context_of (scripted_world default_heap [succeeded; navigation_aborted])
                   DefaultOptions_value)
       DefaultOptions_value (script DefaultOptions_value "report").
Proof.
  apply (@conversion_returns_bytes_or_error scripted default_heap 1%nat 0%nat
           DefaultOptions_value [succeeded; navigation_aborted] [] "report").
  split; reflexivity.
Defined.

(** C4 (as stated) fails: when the client answers every command, the print
    included, with no error and a nil slice, [FromHTML] and [FromURL]
    return neither bytes nor an error. *)
Lemma conversion_returns_neither_bytes_nor_error :
  exists w1 w2,
    @Generator.FromHTML scripted (Some 1%nat) "report"
      (scripted_world default_heap [succeeded; succeeded; succeeded; succeeded])
    = Returns (None, None) w1
    /\ @Generator.FromURL scripted (Some 1%nat) "https://example.com"
         (scripted_world default_heap [succeeded; succeeded; succeeded; succeeded])
       = Returns (None, None) w2
    /\ chromedp.data succeeded = None /\ chromedp.err succeeded = None.
Proof.
  eexists. eexists. split; [vm_compute; reflexivity|].
  split; [vm_compute; reflexivity|]. split; reflexivity.
Qed.

(** X17: a conversion prints only after the navigation and all waits have
    succeeded: no command before the last one sent is a print, every one
    of them was answered without error, and a print is the last command of
    the whole sequence; a conversion that never gets to the print returns
    the nil slice and the client's error for its last command, wrapped
    once in the conversion's prefix. *)
Theorem conversion_prints_last_or_fails `{External} hp g p o b t input :
  generator_at hp g p o ->
  prints_after_success (Generator.FromHTML (Some g) input) (mkWorld hp b t)
    (context_of (mkWorld hp b t) o) (script o (dataURL input))
    "failed to generate PDF: "
  /\ prints_after_success (Generator.FromURL (Some g) input) (mkWorld hp b t)
       (context_of (mkWorld hp b t) o) (script o input)
       "failed to generate PDF from URL: ".
Proof.
  intros Hgen. split.
  - exact (script_run_prints_after_success _ _ _ _ _ _ _
             (FromHTML_run hp g p o b t input Hgen)).
  - exact (script_run_prints_after_success _ _ _ _ _ _ _
             (FromURL_run hp g p o b t input Hgen)).
Qed.

Lemma conversion_prints_last_or_fails_witness :
  prints_after_success (@Generator.FromHTML scripted (Some 1%nat) "hello")
    (scripted_world default_heap [succeeded; navigation_aborted])
    (context_of (scripted_world default_heap [succeeded; navigation_aborted])
                DefaultOptions_value)
    (script DefaultOptions_value (@dataURL scripted "hello"))
    "failed to generate PDF: "
  /\ prints_after_success (@Generator.FromURL scripted (Some 1%nat) "hello")
       (scripted_world default_heap [succeeded; navigation_aborted])
       (context_of (scripted_world default_heap [succeeded; navigation_aborted])
                   DefaultOptions_value)
       (script DefaultOptions_value "hello")
       "failed to generate PDF from URL: ".
Proof.
  apply (@conversion_prints_last_or_fails scripted default_heap 1%nat 0%nat
           DefaultOptions_value [succeeded; navigation_aborted] [] "hello").
  split; reflexivity.
Defined.

(** ** The top-level functions, exactly *)

(** X5: whatever the state, the top-level [FromHTML] and [FromURL] never
    panic; they allocate a fresh default record and a generator and
    nothing else, and they send to a context opened with the default
    timeout, stopping at the first command the browser fails: navigate,
    wait for body, a sleep of two seconds and the print request of the
    defaults (A4, margins 0.4). *)
Theorem toplevel_conversions_use_defaults `{External} (w : World) (input : string) :
  (exists r w',
      FromHTML input w = Returns r w'
      /\ heap w' = (heap w ++ [OPDFOptions DefaultOptions_value;
                               OGenerator (Some (length (heap w)))])%list)
  /\ stops_at_first_failure (FromHTML input) w (context_of w DefaultOptions_value)
       [chromedp.CmdNavigate (dataURL input); chromedp.CmdWaitReady "body";
        chromedp.CmdSleep (2 * time.Second);
        chromedp.CmdPrintToPDF (printParams DefaultOptions_value)]
  /\ (exists r w',
         FromURL input w = Returns r w'
         /\ heap w' = (heap w ++ [OPDFOptions DefaultOptions_value;
                                  OGenerator (Some (length (heap w)))])%list)
  /\ stops_at_first_failure (FromURL input) w (context_of w DefaultOptions_value)
       [chromedp.CmdNavigate input; chromedp.CmdWaitReady "body";
        chromedp.CmdSleep (2 * time.Second);
        chromedp.CmdPrintToPDF (printParams DefaultOptions_value)].
Proof.
  pose proof (generator_at_fresh (heap w) DefaultOptions_value) as Hgen.
  assert (Hhtml : FromHTML input w =
                  Generator.FromHTML (Some (S (length (heap w)))) input
                    (mkWorld (heap w ++ [OPDFOptions DefaultOptions_value;
                                         OGenerator (Some (length (heap w)))])
                             (browser w) (trace w))).
  { unfold FromHTML. rewrite <- bind_assoc. unfold bind at 1.
    rewrite default_generator_run. reflexivity. }
  assert (Hurl : FromURL input w =
                 Generator.FromURL (Some (S (length (heap w)))) input
                   (mkWorld (heap w ++ [OPDFOptions DefaultOptions_value;
                                        OGenerator (Some (length (heap w)))])
                            (browser w) (trace w))).
  { unfold FromURL. rewrite <- bind_assoc. unfold bind at 1.
    rewrite default_generator_run. reflexivity. }
  pose proof (eq_trans Hhtml
                (FromHTML_run _ _ _ _ (browser w) (trace w) input Hgen)) as Hrun1.
  pose proof (eq_trans Hurl
                (FromURL_run _ _ _ _ (browser w) (trace w) input Hgen)) as Hrun2.
  split; [|split; [|split]].
  - destruct (feed _ _ _) as [[b' sent] r] in Hrun1. eauto.
  - exact (script_run_stops (FromHTML input) w (context_of w DefaultOptions_value)
             DefaultOptions_value (dataURL input) _ _ Hrun1).
  - destruct (feed _ _ _) as [[b' sent] r] in Hrun2. eauto.
  - exact (script_run_stops (FromURL input) w (context_of w DefaultOptions_value)
             DefaultOptions_value input _ _ Hrun2).
Qed.

(** ** [NewGenerator] and nil options *)

(** C8 (as amended): [NewGenerator(nil)] returns a generator over a fresh
    record equal to the one of [DefaultOptions()] (Format "A4", the four
    margins 0.4, portrait, PrintBackground true, Scale 1.0, WaitTime 2s,
    Timeout 30s), and [NewGenerator] of a pointer to a record returns a
    generator over that very record.  So the options pointer of a generator
    returned by [NewGenerator] is never nil, and no conversion on such a
    generator dereferences a nil options record: it returns, now and in
    any later state of the record. *)
Theorem NewGenerator_options_never_nil `{External} (w : World) (options : ptr) :
  options_ok (heap w) options ->
  exists g p o w',
    NewGenerator options w = Returns (Some g) w'
    /\ generator_at (heap w') g p o
    /\ browser w' = browser w /\ trace w' = trace w
    /\ (options = None ->
        o = DefaultOptions_value
        /\ (exists d w0,
               DefaultOptions w = Returns (Some d) w0
               /\ heap w0 !! d = Some (OPDFOptions o))
        /\ Format o = "A4"
        /\ MarginTop o = 0.4%float /\ MarginBottom o = 0.4%float
        /\ MarginLeft o = 0.4%float /\ MarginRight o = 0.4%float
        /\ Landscape o = false /\ PrintBackground o = true
        /\ Scale o = 1.0%float
        /\ WaitTime o = 2 * time.Second /\ Timeout o = 30 * time.Second)
    /\ (forall a, options = Some a ->
        p = a /\ heap w !! a = Some (OPDFOptions o))
    /\ (forall input,
          (exists r w'', Generator.FromHTML (Some g) input w' = Returns r w'')
          /\ (exists r w'', Generator.FromURL (Some g) input w' = Returns r w''))
    /\ (forall hp' b t o' input,
          generator_at hp' g p o' ->
          (exists r w'',
              Generator.FromHTML (Some g) input (mkWorld hp' b t) = Returns r w'')
          /\ (exists r w'',
                 Generator.FromURL (Some g) input (mkWorld hp' b t) = Returns r w'')).
Proof.
  intros Hok. destruct options as [a|].
  - destruct Hok as [o Ho].
    exists (length (heap w)), a, o. eexists.
    split; [reflexivity|]. cbn [heap browser trace].
    pose proof (generator_at_new (heap w) a o Ho) as Hgen.
    split; [exact Hgen|]. split; [reflexivity|]. split; [reflexivity|].
    split; [discriminate|].
    split; [intros a' [= <-]; auto|].
    split; [intros input; exact (conversions_return _ _ _ _ _ _ input Hgen)|].
    intros hp' b t o' input Hgen'. exact (conversions_return _ _ _ _ b t input Hgen').
  - exists (S (length (heap w))), (length (heap w)), DefaultOptions_value. eexists.
    split; [apply NewGenerator_nil_run|]. cbn [heap browser trace].
    pose proof (generator_at_fresh (heap w) DefaultOptions_value) as Hgen.
    split; [exact Hgen|]. split; [reflexivity|]. split; [reflexivity|].
    split.
    { intros _. split; [reflexivity|]. split; [|repeat split].
      exists (length (heap w)). eexists. split; [reflexivity|].
      cbn. apply list_lookup_middle. reflexivity. }
    split; [discriminate|].
    split; [intros input; exact (conversions_return _ _ _ _ _ _ input Hgen)|].
    intros hp' b t o' input Hgen'. exact (conversions_return _ _ _ _ b t input Hgen').
Qed.

Lemma NewGenerator_options_never_nil_witness :
  exists g p o w',
    @NewGenerator scripted None (scripted_world [] []) = Returns (Some g) w'
    /\ generator_at (heap w') g p o
    /\ o = DefaultOptions_value
    /\ (forall input,
          (exists r w'', Generator.FromHTML (Some g) input w' = Returns r w'')
          /\ (exists r w'', Generator.FromURL (Some g) input w' = Returns r w'')).
Proof.
  destruct (@NewGenerator_options_never_nil scripted (scripted_world [] []) None I)
    as (g & p & o & w' & Hnew & Hgen & _ & _ & Hnil & _ & Hconv & _).
  exists g, p, o, w'. split; [exact Hnew|]. split; [exact Hgen|].
  split; [exact (proj1 (Hnil eq_refl))|exact Hconv].
Defined.

(** C8 (as stated) fails: a zero-value [Generator], which does not come
    from [NewGenerator], has a nil options pointer, and both conversions
    panic on it when they read [g.options.Timeout]. *)
Lemma zero_value_Generator_conversions_panic :
  @Generator.FromHTML scripted (Some 0%nat) "report"
    (scripted_world [OGenerator None] [succeeded]) = Panics
  /\ @Generator.FromURL scripted (Some 0%nat) "https://example.com"
       (scripted_world [OGenerator None] [succeeded]) = Panics.
Proof. split; reflexivity. Qed.

(** ** [Size], the calls after it, and every later conversion *)

Section ChainFacts.
Context `{External}.

Lemma invoke_all_run calls : forall hp x p o b t,
  builder_at hp x p o ->
  invoke_all calls (Some x) (mkWorld hp b t)
  = Returns (Some x) (mkWorld (<[p := OPDFOptions (updated_all calls o)]> hp) b t).
Proof.
  induction calls as [|c calls IH]; intros hp x p o b t Hb; cbn.
  - unfold ret. rewrite list_insert_id by exact (proj2 Hb). reflexivity.
  - unfold bind. rewrite (invoke_run hp x p o b t c Hb).
    rewrite (IH _ x p (updated c o) b t (builder_at_insert _ _ _ _ _ Hb)).
    rewrite list_insert_insert_eq. reflexivity.
Qed.

Lemma Generate_run hp x p o b t input :
  builder_at hp x p o ->
  OptionsBuilder.Generate (Some x) input (mkWorld hp b t) =
  (let '(b', sent, r) :=
     feed (NewContext (Timeout o) b) (script o (dataURL input)) noReply in
   Returns (outcome "failed to generate PDF: " sent r)
           (mkWorld (hp ++ [OGenerator (Some p)]) (cancel b') (t ++ sent))).
Proof.
  intros Hb. unfold OptionsBuilder.Generate. unfold bind at 1.
  rewrite (Build_run hp x p o b t Hb).
  exact (FromHTML_run _ _ _ _ b t input (generator_at_new hp p o (proj2 Hb))).
Qed.

Lemma GenerateFromURL_run hp x p o b t url :
  builder_at hp x p o ->
  OptionsBuilder.GenerateFromURL (Some x) url (mkWorld hp b t) =
  (let '(b', sent, r) := feed (NewContext (Timeout o) b) (script o url) noReply in
   Returns (outcome "failed to generate PDF from URL: " sent r)
           (mkWorld (hp ++ [OGenerator (Some p)]) (cancel b') (t ++ sent))).
Proof.
  intros Hb. unfold OptionsBuilder.GenerateFromURL. unfold bind at 1.
  rewrite (Build_run hp x p o b t Hb).
  exact (FromURL_run _ _ _ _ b t url (generator_at_new hp p o (proj2 Hb))).
Qed.
End ChainFacts.

Lemma updated_all_keeps_Format_empty calls : forall o,
  forallb (fun c => negb (is_Format c)) calls = true ->
  Format o = "" -> Format (updated_all calls o) = "".
Proof.
  induction calls as [|c calls IH]; intros o Hno Hf; [exact Hf|].
  cbn in Hno. apply andb_prop in Hno. destruct Hno as [Hc Hrest].
  cbn. apply IH; [exact Hrest|].
  destruct c; cbn in Hc |- *; try discriminate; try exact Hf; reflexivity.
Qed.

Lemma updated_all_keeps_size calls : forall o,
  forallb (fun c => negb (is_Size c)) calls = true ->
  Width (updated_all calls o) = Width o /\ Height (updated_all calls o) = Height o.
Proof.
  induction calls as [|c calls IH]; intros o Hno; [split; reflexivity|].
  cbn in Hno. apply andb_prop in Hno. destruct Hno as [Hc Hrest].
  cbn. destruct (IH (updated c o) Hrest) as [Hw Hh]. rewrite Hw, Hh.
  destruct c; cbn in Hc |- *; try discriminate; split; reflexivity.
Qed.

(** C10 (as amended): on every builder, [Size(width, height)] sets [Width]
    and [Height] to its arguments and clears [Format].  When no [Format]
    call follows, whatever other configuration calls do, [Format] stays
    empty (and [Width] and [Height] stay [width] and [height] unless a
    later [Size] replaces them), and every later conversion on that record,
    through [Generate], [GenerateFromURL], [Build] followed by [FromHTML] or
    [FromURL], or any generator sharing the record, never uses a named
    format: the print request at the end of its command sequence carries
    the record's [Width] and [Height] when both are positive, and a paper
    width and height of zero otherwise. *)
Theorem Size_sets_custom_size `{External} hp x p o b t width height calls :
  builder_at hp x p o ->
  forallb (fun c => negb (is_Format c)) calls = true ->
  exists o1 o' waits params,
    OptionsBuilder.Size (Some x) width height (mkWorld hp b t)
      = Returns (Some x) (mkWorld (<[p := OPDFOptions o1]> hp) b t)
    /\ Width o1 = width /\ Height o1 = height /\ Format o1 = ""
    /\ invoke_all calls (Some x) (mkWorld (<[p := OPDFOptions o1]> hp) b t)
       = Returns (Some x) (mkWorld (<[p := OPDFOptions o']> hp) b t)
    /\ Format o' = ""
    /\ (forallb (fun c => negb (is_Size c)) calls = true ->
        Width o' = width /\ Height o' = height)
    /\ existsb isPrint waits = false
    /\ (PrimFloat.ltb 0%float (Width o') && PrimFloat.ltb 0%float (Height o') = true ->
        page.PaperWidth params = Width o' /\ page.PaperHeight params = Height o')
    /\ (PrimFloat.ltb 0%float (Width o') && PrimFloat.ltb 0%float (Height o') = false ->
        page.PaperWidth params = 0%float /\ page.PaperHeight params = 0%float)
    /\ forall hp' b1 t1 input,
         let sequence target :=
           (chromedp.CmdNavigate target :: chromedp.CmdWaitReady "body"
              :: waits ++ [chromedp.CmdPrintToPDF params])%list in
         let b0 := NewContext (Timeout o') b1 in
         (forall g, generator_at hp' g p o' ->
            stops_at_first_failure (Generator.FromHTML (Some g) input)
              (mkWorld hp' b1 t1) b0 (sequence (dataURL input))
            /\ stops_at_first_failure (Generator.FromURL (Some g) input)
                 (mkWorld hp' b1 t1) b0 (sequence input))
         /\ (builder_at hp' x p o' ->
             stops_at_first_failure (OptionsBuilder.Generate (Some x) input)
               (mkWorld hp' b1 t1) b0 (sequence (dataURL input))
             /\ stops_at_first_failure (OptionsBuilder.GenerateFromURL (Some x) input)
                  (mkWorld hp' b1 t1) b0 (sequence input)
             /\ stops_at_first_failure
                  (bind (OptionsBuilder.Build (Some x))
                        (fun g => Generator.FromHTML g input))
                  (mkWorld hp' b1 t1) b0 (sequence (dataURL input))
             /\ stops_at_first_failure
                  (bind (OptionsBuilder.Build (Some x))
                        (fun g => Generator.FromURL g input))
                  (mkWorld hp' b1 t1) b0 (sequence input)).
Proof.
  intros Hb Hno.
  set (o1 := updated (CallSize width height) o).
  set (o' := updated_all calls o1).
  assert (Hf : Format o' = "")
    by (apply updated_all_keeps_Format_empty; [exact Hno|reflexivity]).
  exists o1, o', (waitCommands o'), (printParams o').
  split; [exact (invoke_run hp x p o b t (CallSize width height) Hb)|].
  split; [reflexivity|]. split; [reflexivity|]. split; [reflexivity|].
  split.
  { rewrite (invoke_all_run calls _ x p o1 b t (builder_at_insert _ _ _ _ _ Hb)).
    rewrite list_insert_insert_eq. reflexivity. }
  split; [exact Hf|].
  split; [intros Hns; exact (updated_all_keeps_size calls o1 Hns)|].
  split; [apply waitCommands_not_print|].
  split.
  { intros Hpos. unfold printParams, paperSize. cbn. rewrite Hf, Hpos.
    split; reflexivity. }
  split.
  { intros Hpos. unfold printParams, paperSize. cbn. rewrite Hf, Hpos.
    split; reflexivity. }
  intros hp' b1 t1 input. cbv zeta. split.
  - intros g Hgen. split.
    + exact (script_run_stops _ _ _ _ _ _ _ (FromHTML_run hp' g p o' b1 t1 input Hgen)).
    + exact (script_run_stops _ _ _ _ _ _ _ (FromURL_run hp' g p o' b1 t1 input Hgen)).
  - intros Hb'.
    pose proof (script_run_stops _ _ _ _ _ _ _ (Generate_run hp' x p o' b1 t1 input Hb'))
      as Hgen1.
    pose proof (script_run_stops _ _ _ _ _ _ _
                  (GenerateFromURL_run hp' x p o' b1 t1 input Hb')) as Hgen2.
    split; [exact Hgen1|]. split; [exact Hgen2|].
    split; [exact Hgen1|exact Hgen2].
Qed.

Lemma Size_sets_custom_size_witness :
  exists o1 o',
    @OptionsBuilder.Size scripted (Some 1%nat) 8.5%float 11%float
      (scripted_world builder_heap [])
      = Returns (Some 1%nat)
          (@mkWorld scripted (<[0%nat := OPDFOptions o1]> builder_heap) [] [])
    /\ Width o1 = 8.5%float /\ Height o1 = 11%float /\ Format o1 = ""
    /\ @invoke_all scripted [CallLandscape; CallScale 0.8%float] (Some 1%nat)
         (@mkWorld scripted (<[0%nat := OPDFOptions o1]> builder_heap) [] [])
       = Returns (Some 1%nat)
           (@mkWorld scripted (<[0%nat := OPDFOptions o']> builder_heap) [] [])
    /\ Format o' = "".
Proof.
  destruct (@Size_sets_custom_size scripted builder_heap 1%nat 0%nat
              DefaultOptions_value [] [] 8.5%float 11%float
              [CallLandscape; CallScale 0.8%float]
              ltac:(split; reflexivity) eq_refl)
    as (o1 & o' & waits & params & Hsize & Hw & Hh & Hf & Hall & Hf' & _).
  exists o1, o'. repeat split; assumption.
Defined.
